(** * util/generate_hard_docs.py: the document replicator

    A shallow embedding of the script and of the part of the operating
    system it talks to, followed by the properties of its specification.

    Modelling choices.
    - The working directory holds regular files and directories, nested at
      will, and nothing else: no symbolic links, no devices, and the process
      may search it.  This is the scope of every statement below; in it
      [os.path.exists] is a lookup.  Where a statement would be false of the
      script once hard_docs may be a symbolic link, its hypotheses say what
      hard_docs is.
    - A file holds a string of 8-bit characters.  A directory is an
      association list from entry names to nodes; the order of the list is
      the order in which [os.listdir] reports the entries, and a name is
      looked up, replaced and removed at its first occurrence.
    - A path is the list of its components: ['hard_docs'] is the
      one-component path and [os.path.join(dir, filename)] adds a component.
      All paths of the script are relative to the working directory.
    - The script is a computation in a state-and-exception monad.  The state
      is the working directory, the text printed so far, and the trace of
      the operations that completed.  An exception leaves the state as the
      failing operation left it: nothing is rolled back, nothing is caught.
    - The environment may refuse any operation (permissions, a full disk, an
      input or output error): [deny] says which.  A refused write may have put a
      prefix of its text on the disk: [reached] says how many characters.
      In a run over directories with distinct names no operation is
      attempted twice, so a function of the operation describes every
      pattern of refusals.
    - Files are opened in text mode on a POSIX system whose locale encoding
      is UTF-8: reading decodes the bytes strictly, so a file that is not
      valid UTF-8 makes [f.read()] raise UnicodeDecodeError whatever the
      environment allows, and translates the line endings CR LF and CR to
      LF (Python's universal newlines, the default of [open(path, 'r')]);
      writing encodes the text back to the same bytes and stores it as it
      is. *)

From Stdlib Require Import List String Ascii Bool Arith Lia.
From Stdlib Require Import DecimalString DecimalNat.
Import ListNotations.

Set Warnings "-register-all".
Local Open Scope string_scope.
Local Open Scope list_scope.

(** ** The file system *)

Inductive node : Type :=
| File (content : string)
| Dir (entries : list (string * node)).

Definition dirents : Type := list (string * node).
Definition path : Type := list string.

Fixpoint lookup (name : string) (ents : dirents) : option node :=
  match ents with
  | [] => None
  | (n, x) :: rest => if String.eqb name n then Some x else lookup name rest
  end.

Fixpoint remove_entry (name : string) (ents : dirents) : dirents :=
  match ents with
  | [] => []
  | (n, x) :: rest =>
      if String.eqb name n then rest else (n, x) :: remove_entry name rest
  end.

(** Replace the node of an existing entry in place; a new entry goes last. *)
Fixpoint set_entry (name : string) (x : node) (ents : dirents) : dirents :=
  match ents with
  | [] => [(name, x)]
  | (n, y) :: rest =>
      if String.eqb name n then (n, x) :: rest
      else (n, y) :: set_entry name x rest
  end.

(** The classes of exception the operations raise: [OSError] and its
    subclasses, and the [UnicodeDecodeError] of a text-mode read. *)
Inductive errkind : Type :=
| FileNotFoundError
| FileExistsError
| IsADirectoryError
| NotADirectoryError
| DirectoryNotEmpty
| OSError
| UnicodeDecodeError.

Fixpoint resolve (p : path) (ents : dirents) : errkind + node :=
  match p with
  | [] => inr (Dir ents)
  | c :: p' =>
      match lookup c ents with
      | None => inl FileNotFoundError
      | Some x =>
          match p' with
          | [] => inr x
          | _ :: _ =>
              match x with
              | File _ => inl NotADirectoryError
              | Dir sub => resolve p' sub
              end
          end
      end
  end.

(** [modify p f ents] walks to the directory that holds the last component
    of [p] and lets [f] decide, from what is there under that name, whether
    the operation fails, removes the entry or stores a node. *)
Fixpoint modify (p : path) (f : option node -> errkind + option node)
    (ents : dirents) : errkind + dirents :=
  match p with
  | [] => inl FileNotFoundError
  | c :: p' =>
      match p' with
      | [] =>
          match f (lookup c ents) with
          | inl k => inl k
          | inr None => inr (remove_entry c ents)
          | inr (Some x) => inr (set_entry c x ents)
          end
      | _ :: _ =>
          match lookup c ents with
          | None => inl FileNotFoundError
          | Some (File _) => inl NotADirectoryError
          | Some (Dir sub) =>
              match modify p' f sub with
              | inl k => inl k
              | inr sub' => inr (set_entry c (Dir sub') ents)
              end
          end
      end
  end.

(** ** Text *)

Definition LF : ascii := "010"%char.
Definition CR : ascii := "013"%char.
Definition nl : string := String LF EmptyString.

(** What [f.read()] returns for a file opened with [open(path, 'r')].
    The [newline] argument of [open] is left at its default [None], for
    which the documentation of [open] says: universal newlines mode is
    enabled; lines in the input can end in LF, CR or CR LF, and these are
    translated into LF before being returned to the caller. *)
Fixpoint universal_newlines (s : string) : string :=
  match s with
  | EmptyString => EmptyString
  | String c r =>
      if Ascii.eqb c CR then
        match r with
        | String c' r' =>
            if Ascii.eqb c' LF then String LF (universal_newlines r')
            else String LF (universal_newlines r)
        | EmptyString => String LF EmptyString
        end
      else String c (universal_newlines r)
  end.

(** The strict UTF-8 decoder of [f.read()] accepts a string of bytes when
    it is a sequence of well-formed code points: one byte below 128; a lead
    byte 194-223 and one continuation byte; a lead byte 224-239 and two; a
    lead byte 240-244 and three; where a continuation byte is 128-191 and
    the first one is narrowed after the lead bytes 224 (160-191, no
    overlong form), 237 (128-159, no surrogate), 240 (144-191, no overlong
    form) and 244 (128-143, nothing above U+10FFFF). *)
Definition in_range (lo hi : nat) (c : ascii) : bool :=
  Nat.leb lo (nat_of_ascii c) && Nat.leb (nat_of_ascii c) hi.

Definition is_continuation (c : ascii) : bool := in_range 128 191 c.

Definition second_of_three (b0 b1 : ascii) : bool :=
  if Nat.eqb (nat_of_ascii b0) 224 then in_range 160 191 b1
  else if Nat.eqb (nat_of_ascii b0) 237 then in_range 128 159 b1
  else is_continuation b1.

Definition second_of_four (b0 b1 : ascii) : bool :=
  if Nat.eqb (nat_of_ascii b0) 240 then in_range 144 191 b1
  else if Nat.eqb (nat_of_ascii b0) 244 then in_range 128 143 b1
  else is_continuation b1.

Fixpoint utf8_valid (s : string) : bool :=
  match s with
  | EmptyString => true
  | String b0 r0 =>
      if Nat.leb (nat_of_ascii b0) 127 then utf8_valid r0
      else
        match r0 with
        | EmptyString => false
        | String b1 r1 =>
            if in_range 194 223 b0 then is_continuation b1 && utf8_valid r1
            else
              match r1 with
              | EmptyString => false
              | String b2 r2 =>
                  if in_range 224 239 b0 then
                    second_of_three b0 b1 && is_continuation b2 &&
                    utf8_valid r2
                  else
                    match r2 with
                    | EmptyString => false
                    | String b3 r3 =>
                        in_range 240 244 b0 && second_of_four b0 b1 &&
                        is_continuation b2 && is_continuation b3 &&
                        utf8_valid r3
                    end
              end
        end
  end.

Fixpoint has_cr (s : string) : bool :=
  match s with
  | EmptyString => false
  | String c r => Ascii.eqb c CR || has_cr r
  end.

(** Python's [str(i)], and the field [{i}] of an f-string, for a natural
    number: its decimal digits. *)
Definition str (i : nat) : string := NilEmpty.string_of_uint (Nat.to_uint i).

Definition range (n : nat) : list nat := seq 0 n.

(** ** Operations, state and the monad *)

Inductive op : Type :=
| Listdir (p : path)
| Remove (p : path)
| Rmdir (p : path)
| Mkdir (p : path)
| OpenR (p : path)
| Read (p : path)
| OpenW (p : path)
| Write (p : path) (text : string)
| Print (line : string).

(** An exception: its class and the operation that raised it. *)
Inductive exn : Type := Exn (kind : errkind) (at_op : op).

Inductive result (A : Type) : Type :=
| Ok (a : A)
| Raise (e : exn).
Arguments Ok {A} a.
Arguments Raise {A} e.

Record state : Type := mkState {
  cwd : dirents;
  stdout : string;
  trace : list op
}.

Definition M (A : Type) : Type := state -> result A * state.

Definition ret {A : Type} (a : A) : M A := fun s => (Ok a, s).

Definition bind {A B : Type} (m : M A) (k : A -> M B) : M B :=
  fun s =>
    match m s with
    | (Ok a, s') => k a s'
    | (Raise e, s') => (Raise e, s')
    end.

Notation "x <- m ;; k" := (bind m (fun x => k))
  (at level 61, m at next level, right associativity).
Notation "m ;; k" := (bind m (fun _ => k))
  (at level 61, right associativity).

Fixpoint for_each {A : Type} (xs : list A) (body : A -> M unit) : M unit :=
  match xs with
  | [] => ret tt
  | x :: xs' => body x ;; for_each xs' body
  end.

Definition done (o : op) (fs : dirents) (s : state) : state :=
  {| cwd := fs; stdout := stdout s; trace := trace s ++ [o] |}.

Section Script.

(** The environment: which operations it refuses, and how much of a
    refused write reached the disk. *)
Variable deny : op -> bool.
Variable reached : path -> nat.

(** An operation that changes the directory tree. *)
Definition update (o : op) (p : path)
    (f : option node -> errkind + option node) : M unit :=
  fun s =>
    if deny o then (Raise (Exn OSError o), s)
    else match modify p f (cwd s) with
         | inl k => (Raise (Exn k o), s)
         | inr fs => (Ok tt, done o fs s)
         end.

(** An operation that only looks at the node under a path. *)
Definition query {A : Type} (o : op) (p : path)
    (f : node -> errkind + A) : M A :=
  fun s =>
    if deny o then (Raise (Exn OSError o), s)
    else match resolve p (cwd s) with
         | inl k => (Raise (Exn k o), s)
         | inr x =>
             match f x with
             | inl k => (Raise (Exn k o), s)
             | inr a => (Ok a, done o (cwd s) s)
             end
         end.

(** [os.path.exists] never raises: a path that cannot be resolved does
    not exist.  In the scope of this file (no symbolic links, a working
    directory the process may search) the answer is the lookup of the
    path. *)
Definition os_path_exists (p : path) : M bool :=
  fun s =>
    (Ok (match resolve p (cwd s) with inr _ => true | inl _ => false end), s).

Definition os_path_join (d : path) (filename : string) : path :=
  d ++ [filename].

(** [os.listdir]: the names of the entries, in the order of the listing. *)
Definition os_listdir (p : path) : M (list string) :=
  query (Listdir p) p
    (fun x => match x with
              | Dir ents => inr (map fst ents)
              | File _ => inl NotADirectoryError
              end).

(** [os.remove] unlinks a file and refuses a directory. *)
Definition os_remove (p : path) : M unit :=
  update (Remove p) p
    (fun x => match x with
              | None => inl FileNotFoundError
              | Some (Dir _) => inl IsADirectoryError
              | Some (File _) => inr None
              end).

(** [os.rmdir] removes an empty directory. *)
Definition os_rmdir (p : path) : M unit :=
  update (Rmdir p) p
    (fun x => match x with
              | None => inl FileNotFoundError
              | Some (File _) => inl NotADirectoryError
              | Some (Dir []) => inr None
              | Some (Dir (_ :: _)) => inl DirectoryNotEmpty
              end).

(** [os.mkdir] refuses a name that is taken. *)
Definition os_mkdir (p : path) : M unit :=
  update (Mkdir p) p
    (fun x => match x with
              | None => inr (Some (Dir []))
              | Some _ => inl FileExistsError
              end).

(** [open(p, 'r')]; the handle is the path of the open file. *)
Definition open_r (p : path) : M path :=
  query (OpenR p) p
    (fun x => match x with
              | File _ => inr p
              | Dir _ => inl IsADirectoryError
              end).

(** [f.read()]: the whole file, decoded and with its line endings
    translated; bytes that do not decode raise. *)
Definition f_read (f : path) : M string :=
  query (Read f) f
    (fun x => match x with
              | File c =>
                  if utf8_valid c then inr (universal_newlines c)
                  else inl UnicodeDecodeError
              | Dir _ => inl IsADirectoryError
              end).

(** [open(p, 'w')] creates the file, or empties the one that is there. *)
Definition open_w (p : path) : M path :=
  update (OpenW p) p
    (fun x => match x with
              | Some (Dir _) => inl IsADirectoryError
              | _ => inr (Some (File ""))
              end) ;;
  ret p.

Definition store (text : string) (x : option node)
    : errkind + option node :=
  match x with
  | Some (File _) => inr (Some (File text))
  | Some (Dir _) => inl IsADirectoryError
  | None => inl FileNotFoundError
  end.

(** [f.write(text)] on a handle that [open_w] just returned, together
    with the flush when the [with] block closes the file.  A refused write
    leaves the first [reached f] characters of the text in the file. *)
Definition f_write (f : path) (text : string) : M unit :=
  fun s =>
    if deny (Write f text) then
      (Raise (Exn OSError (Write f text)),
       match modify f (store (substring 0 (reached f) text)) (cwd s) with
       | inr fs => {| cwd := fs; stdout := stdout s; trace := trace s |}
       | inl _ => s
       end)
    else match modify f (store text) (cwd s) with
         | inl k => (Raise (Exn k (Write f text)), s)
         | inr fs => (Ok tt, done (Write f text) fs s)
         end.

(** [print(line)]: the line and a line feed on the standard output. *)
Definition print (line : string) : M unit :=
  fun s =>
    if deny (Print line) then (Raise (Exn OSError (Print line)), s)
    else (Ok tt, {| cwd := cwd s;
                    stdout := (stdout s ++ line ++ nl)%string;
                    trace := trace s ++ [Print line] |}).

(** ** The script *)

(** Lines 3-4, and the literal of line 23. *)
Definition dir : path := ["hard_docs"].
Definition docs_path : path := ["docs.txt"].
Definition success_message : string := "Files created successfully.".

(** Lines 6-10: the reset of the output directory. *)
Definition reset : M unit :=
  present <- os_path_exists dir ;;
  if present then
    names <- os_listdir dir ;;
    for_each names (fun filename =>
      let file_path := os_path_join dir filename in
      os_remove file_path) ;;
    os_rmdir dir
  else ret tt.

(** Lines 13-14; leaving the [with] block closes the file, which changes
    nothing for a file that was only read. *)
Definition read_docs : M string :=
  f <- open_r docs_path ;;
  f_read f.

(** Lines 17-21, the body of the loop. *)
Definition write_doc (docs_content : string) (i : nat) : M unit :=
  let o := os_path_join dir (str i ++ ".txt")%string in
  let content := (str i ++ nl ++ docs_content)%string in
  f <- open_w o ;;
  f_write f content.

(** Lines 16-21: [for i in range(51)]. *)
Definition generate (docs_content : string) : M unit :=
  for_each (range 51) (write_doc docs_content).

(** The module body: lines 6-10, 11, 13-14, 16-21 and 23 in sequence. *)
Definition script : M unit :=
  reset ;;
  os_mkdir dir ;;
  docs_content <- read_docs ;;
  generate docs_content ;;
  print success_message.

(** A process starts with nothing printed and nothing done. *)
Definition boot (fs : dirents) : state :=
  {| cwd := fs; stdout := ""; trace := [] |}.

(** One run of the script.  The command line and the environment variables
    are handed to the process and the script reads neither. *)
Definition run (argv : list string) (environ : list (string * string))
    (fs : dirents) : result unit * state :=
  script (boot fs).

End Script.

(** ** The vocabulary of the specification *)

(** The node under the name of the output directory, and under the name of
    the source document, in a working directory. *)
Definition hard_docs (fs : dirents) : option node := lookup "hard_docs" fs.
Definition docs_txt (fs : dirents) : option node := lookup "docs.txt" fs.

(** Store a directory with entries [ents] under the name [hard_docs]. *)
Definition put_dir (ents : dirents) (fs : dirents) : dirents :=
  set_entry "hard_docs" (Dir ents) fs.

(** The output file of index [i] for the text [text] of the document. *)
Definition fname (i : nat) : string := (str i ++ ".txt")%string.
Definition fcontent (text : string) (i : nat) : string :=
  (str i ++ nl ++ text)%string.
Definition out_path (i : nat) : path := ["hard_docs"; fname i].
Definition out_file (text : string) (i : nat) : string * node :=
  (fname i, File (fcontent text i)).
Definition files_from (text : string) (a n : nat) : dirents :=
  map (out_file text) (seq a n).
Definition out_files (text : string) (k : nat) : dirents :=
  files_from text 0 k.

(** The operations of the generation loop for the indices [a .. a+n-1]. *)
Definition gen_ops (text : string) (a n : nat) : list op :=
  flat_map (fun i => [OpenW (out_path i); Write (out_path i) (fcontent text i)])
    (seq a n).

(** The removal the reset attempts for an entry of the output directory. *)
Definition rm_op (e : string * node) : op := Remove ["hard_docs"; fst e].

Definition is_file (x : node) : bool :=
  match x with File _ => true | Dir _ => false end.

(** The lines a trace prints, in order. *)
Definition printed (t : list op) : list string :=
  flat_map (fun o => match o with Print line => [line] | _ => [] end) t.

(** The files a trace opens for writing, in order. *)
Definition opened (t : list op) : list path :=
  flat_map (fun o => match o with OpenW p => [p] | _ => [] end) t.

Definition no_faults : op -> bool := fun _ => false.
Definition nothing_reached : path -> nat := fun _ => 0.

(** ** The outcomes of a run *)

(** An entry of the output directory that the reset can remove, and one it
    cannot: a subdirectory, or a file whose removal the environment
    refuses. *)
Definition removable (deny : op -> bool) (e : string * node) : Prop :=
  is_file (snd e) = true /\ deny (rm_op e) = false.

Definition blocked (deny : op -> bool) (e : string * node) : Prop :=
  is_file (snd e) = false \/ deny (rm_op e) = true.

(** The operations of a reset that completes in the working directory
    [fs], and the condition under which it does. *)
Definition reset_ops (fs : dirents) : list op :=
  match hard_docs fs with
  | Some (Dir ents) => Listdir ["hard_docs"] :: map rm_op ents ++ [Rmdir ["hard_docs"]]
  | _ => []
  end.

Definition reset_completes (deny : op -> bool) (fs : dirents) : Prop :=
  match hard_docs fs with
  | None => True
  | Some (File _) => False
  | Some (Dir ents) =>
      deny (Listdir ["hard_docs"]) = false /\
      Forall (removable deny) ents /\
      deny (Rmdir ["hard_docs"]) = false
  end.

(** The working directory once the output directory has been removed and
    made again with the entries [ents]. *)
Definition installed (ents : dirents) (fs : dirents) : dirents :=
  put_dir ents (remove_entry "hard_docs" fs).

(** The reset, the creation of the directory and the reading of the
    document all succeed from working directory [fs], and the document
    holds [C]. *)
Definition ready (deny : op -> bool) (fs : dirents) (C : string) : Prop :=
  reset_completes deny fs /\
  deny (Mkdir ["hard_docs"]) = false /\
  hard_docs (remove_entry "hard_docs" fs) = None /\
  deny (OpenR ["docs.txt"]) = false /\
  docs_txt fs = Some (File C) /\
  deny (Read ["docs.txt"]) = false /\
  utf8_valid C = true.

Definition setup_ops (fs : dirents) : list op :=
  reset_ops fs ++ [Mkdir ["hard_docs"]; OpenR ["docs.txt"]; Read ["docs.txt"]].

(** The file of index [j] as a refused write leaves it. *)
Definition torn_file (reached : path -> nat) (text : string) (j : nat)
    : string * node :=
  (fname j, File (substring 0 (reached (out_path j)) (fcontent text j))).

Inductive reset_outcome (deny : op -> bool) (s : state)
    : result unit -> state -> Prop :=
| reset_done :
    reset_completes deny (cwd s) ->
    reset_outcome deny s (Ok tt)
      (mkState (remove_entry "hard_docs" (cwd s)) (stdout s)
         (trace s ++ reset_ops (cwd s)))
| listdir_fails k :
    hard_docs (cwd s) <> None ->
    deny (Listdir ["hard_docs"]) = true \/
      (exists c, hard_docs (cwd s) = Some (File c)) ->
    reset_outcome deny s (Raise (Exn k (Listdir ["hard_docs"]))) s
| remove_fails k gone e rest :
    hard_docs (cwd s) = Some (Dir (gone ++ e :: rest)) ->
    Forall (removable deny) gone ->
    blocked deny e ->
    reset_outcome deny s (Raise (Exn k (rm_op e)))
      (mkState (put_dir (e :: rest) (cwd s)) (stdout s)
         (trace s ++ Listdir ["hard_docs"] :: map rm_op gone))
| rmdir_fails ents :
    hard_docs (cwd s) = Some (Dir ents) ->
    Forall (removable deny) ents ->
    deny (Rmdir ["hard_docs"]) = true ->
    reset_outcome deny s (Raise (Exn OSError (Rmdir ["hard_docs"])))
      (mkState (put_dir [] (cwd s)) (stdout s)
         (trace s ++ Listdir ["hard_docs"] :: map rm_op ents)).

Inductive outcome (deny : op -> bool) (reached : path -> nat) (s : state)
    : result unit -> state -> Prop :=
| reset_fails e s' :
    reset_outcome deny s (Raise e) s' ->
    outcome deny reached s (Raise e) s'
| mkdir_fails k :
    reset_completes deny (cwd s) ->
    deny (Mkdir ["hard_docs"]) = true \/
      hard_docs (remove_entry "hard_docs" (cwd s)) <> None ->
    outcome deny reached s (Raise (Exn k (Mkdir ["hard_docs"])))
      (mkState (remove_entry "hard_docs" (cwd s)) (stdout s)
         (trace s ++ reset_ops (cwd s)))
| open_fails k :
    reset_completes deny (cwd s) ->
    hard_docs (remove_entry "hard_docs" (cwd s)) = None ->
    deny (OpenR ["docs.txt"]) = true \/
      (forall c, docs_txt (cwd s) <> Some (File c)) ->
    outcome deny reached s (Raise (Exn k (OpenR ["docs.txt"])))
      (mkState (installed [] (cwd s)) (stdout s)
         (trace s ++ reset_ops (cwd s) ++ [Mkdir ["hard_docs"]]))
| read_fails k C :
    reset_completes deny (cwd s) ->
    hard_docs (remove_entry "hard_docs" (cwd s)) = None ->
    docs_txt (cwd s) = Some (File C) ->
    deny (Read ["docs.txt"]) = true \/ utf8_valid C = false ->
    outcome deny reached s (Raise (Exn k (Read ["docs.txt"])))
      (mkState (installed [] (cwd s)) (stdout s)
         (trace s ++ reset_ops (cwd s) ++
          [Mkdir ["hard_docs"]; OpenR ["docs.txt"]]))
| create_fails C j :
    ready deny (cwd s) C ->
    j < 51 ->
    deny (OpenW (out_path j)) = true ->
    outcome deny reached s (Raise (Exn OSError (OpenW (out_path j))))
      (mkState (installed (out_files (universal_newlines C) j) (cwd s))
         (stdout s)
         (trace s ++ setup_ops (cwd s) ++
          gen_ops (universal_newlines C) 0 j))
| write_fails C j :
    ready deny (cwd s) C ->
    j < 51 ->
    deny (Write (out_path j) (fcontent (universal_newlines C) j)) = true ->
    outcome deny reached s
      (Raise (Exn OSError
                (Write (out_path j) (fcontent (universal_newlines C) j))))
      (mkState
         (installed
            (out_files (universal_newlines C) j ++
             [torn_file reached (universal_newlines C) j])
            (cwd s))
         (stdout s)
         (trace s ++ setup_ops (cwd s) ++
          gen_ops (universal_newlines C) 0 j ++ [OpenW (out_path j)]))
| print_fails C :
    ready deny (cwd s) C ->
    deny (Print "Files created successfully.") = true ->
    outcome deny reached s
      (Raise (Exn OSError (Print "Files created successfully.")))
      (mkState (installed (out_files (universal_newlines C) 51) (cwd s))
         (stdout s)
         (trace s ++ setup_ops (cwd s) ++
          gen_ops (universal_newlines C) 0 51))
| completes C :
    ready deny (cwd s) C ->
    outcome deny reached s (Ok tt)
      (mkState (installed (out_files (universal_newlines C) 51) (cwd s))
         (stdout s ++ "Files created successfully." ++ nl)%string
         (trace s ++ setup_ops (cwd s) ++
          gen_ops (universal_newlines C) 0 51 ++
          [Print "Files created successfully."])).

(** ** Example working directories and environments *)

Definition hello_world : string := ("Hello" ++ nl ++ "World")%string.

(** A document, and an output directory left by somebody else. *)
Definition fs_hello : dirents :=
  [("docs.txt", File hello_world);
   ("hard_docs", Dir [("stale.txt", File "old")])].

(** A document with a Windows line ending: a, CR, LF, b. *)
Definition crlf_text : string := ("a" ++ String CR nl ++ "b")%string.
Definition fs_crlf : dirents := [("docs.txt", File crlf_text)].

(** Only a document. *)
Definition fs_plain : dirents := [("docs.txt", File "x")].

(** The same document, and an output directory with a stale file. *)
Definition fs_stale_x : dirents :=
  [("hard_docs", Dir [("stale.txt", File "old")]); ("docs.txt", File "x")].

(** No document; the output directory holds a stale file. *)
Definition fs_no_docs : dirents :=
  [("hard_docs", Dir [("stale.txt", File "old")])].

(** No document; the output directory holds the 51 files of an earlier
    run and a subdirectory that the listing reports first. *)
Definition fs_no_docs_full : dirents :=
  [("hard_docs", Dir (("sub", Dir []) :: out_files "previous" 51))].

(** A document, and an output directory with a subdirectory between two
    files. *)
Definition fs_subdir : dirents :=
  [("docs.txt", File "x");
   ("hard_docs",
    Dir [("a.txt", File "a"); ("sub", Dir []); ("b.txt", File "b")])].

(** The disk fills up while the file of index 3 is written. *)
Definition disk_full_at_3 : op -> bool :=
  fun o =>
    match o with
    | Write p _ =>
        match p with
        | [_; name] => String.eqb name "3.txt"
        | _ => false
        end
    | _ => false
    end.

(** The output directory turns read-only once the file of index 3 is
    due. *)
Definition no_create_at_3 : op -> bool :=
  fun o =>
    match o with
    | OpenW p =>
        match p with
        | [_; name] => String.eqb name "3.txt"
        | _ => false
        end
    | _ => false
    end.

(** ** Further vocabulary *)

(** The path separator, and whether a name contains one. *)
Definition SLASH : ascii := "/"%char.

Fixpoint has_slash (s : string) : bool :=
  match s with
  | EmptyString => false
  | String c r => Ascii.eqb c SLASH || has_slash r
  end.

(** A directory listing that holds files only. *)
Definition flat (ents : dirents) : Prop :=
  Forall (fun e => is_file (snd e) = true) ents.

(** The working directory has no entry named hard_docs, or the entry is a
    directory itself: not a regular file and, in the world of the script,
    not a symbolic link either. *)
Definition absent_or_directory (fs : dirents) : Prop :=
  hard_docs fs = None \/ exists ents, hard_docs fs = Some (Dir ents).

(** A working directory on which the script can do its work: it has at
    most one entry named hard_docs, that entry, if any, is a directory
    itself that holds no subdirectory, and docs.txt is a file whose
    content [C] is valid UTF-8. *)
Definition runnable (fs : dirents) (C : string) : Prop :=
  hard_docs (remove_entry "hard_docs" fs) = None /\
  (hard_docs fs = None \/
   exists ents, hard_docs fs = Some (Dir ents) /\ flat ents) /\
  docs_txt fs = Some (File C) /\
  utf8_valid C = true.

(** An entry that is a file without a carriage return. *)
Definition cr_free (e : string * node) : Prop :=
  match snd e with
  | File c => has_cr c = false
  | Dir _ => False
  end.

(** A regular file sits where the output directory should be. *)
Definition fs_file_in_the_way : dirents :=
  [("hard_docs", File "oops"); ("docs.txt", File "x")].

(** docs.txt holds the single byte 255, which is not valid UTF-8. *)
Definition fs_undecodable : dirents :=
  [("docs.txt", File (String (ascii_of_nat 255) EmptyString));
   ("hard_docs", Dir [("stale.txt", File "old")])].

(** docs.txt is a directory. *)
Definition fs_docs_is_dir : dirents :=
  [("docs.txt", Dir [("inner.txt", File "x")]);
   ("hard_docs", Dir [("stale.txt", File "old")])].

(** The standard output is closed. *)
Definition no_print : op -> bool :=
  fun o => match o with Print _ => true | _ => false end.

(** The working directory does not allow the creation of an entry. *)
Definition no_mkdir : op -> bool :=
  fun o => match o with Mkdir _ => true | _ => false end.

(** * Facts *)

(** ** Association lists *)

Lemma lookup_set_entry_eq (c : string) (x : node) (ents : dirents) :
  lookup c (set_entry c x ents) = Some x.
Proof.
  induction ents as [|[n y] rest IH]; simpl.
  - now rewrite String.eqb_refl.
  - destruct (String.eqb c n) eqn:E; simpl; rewrite E; auto.
Qed.

Lemma lookup_set_entry_neq (c c' : string) (x : node) (ents : dirents) :
  c' <> c -> lookup c' (set_entry c x ents) = lookup c' ents.
Proof.
  intros Hne. induction ents as [|[n y] rest IH]; simpl.
  - apply String.eqb_neq in Hne. now rewrite Hne.
  - destruct (String.eqb c n) eqn:E; simpl.
    + apply String.eqb_eq in E. subst n.
      apply String.eqb_neq in Hne. now rewrite Hne.
    + now rewrite IH.
Qed.

Lemma lookup_remove_entry_neq (c c' : string) (ents : dirents) :
  c' <> c -> lookup c' (remove_entry c ents) = lookup c' ents.
Proof.
  intros Hne. induction ents as [|[n y] rest IH]; simpl; auto.
  destruct (String.eqb c n) eqn:E; simpl.
  - apply String.eqb_eq in E. subst n.
    apply String.eqb_neq in Hne. now rewrite Hne.
  - now rewrite IH.
Qed.

Lemma set_entry_same (c : string) (x : node) (ents : dirents) :
  lookup c ents = Some x -> set_entry c x ents = ents.
Proof.
  induction ents as [|[n y] rest IH]; simpl; [discriminate|].
  destruct (String.eqb c n) eqn:E; intros H.
  - now inversion H.
  - now rewrite IH.
Qed.

Lemma set_entry_twice (c : string) (x y : node) (ents : dirents) :
  set_entry c y (set_entry c x ents) = set_entry c y ents.
Proof.
  induction ents as [|[n z] rest IH]; simpl.
  - now rewrite String.eqb_refl.
  - destruct (String.eqb c n) eqn:E; simpl; rewrite E; auto.
    now rewrite IH.
Qed.

Lemma set_entry_absent (c : string) (x : node) (ents : dirents) :
  lookup c ents = None -> set_entry c x ents = ents ++ [(c, x)].
Proof.
  induction ents as [|[n y] rest IH]; simpl; auto.
  destruct (String.eqb c n); [discriminate|].
  intros H. now rewrite IH.
Qed.

Lemma remove_entry_absent (c : string) (ents : dirents) :
  lookup c ents = None -> remove_entry c ents = ents.
Proof.
  induction ents as [|[n y] rest IH]; simpl; auto.
  destruct (String.eqb c n); [discriminate|].
  intros H. now rewrite IH.
Qed.

Lemma remove_set_entry (c : string) (x : node) (ents : dirents) :
  remove_entry c (set_entry c x ents) = remove_entry c ents.
Proof.
  induction ents as [|[n y] rest IH]; simpl.
  - now rewrite String.eqb_refl.
  - destruct (String.eqb c n) eqn:E; simpl; rewrite E; auto.
    now rewrite IH.
Qed.

Lemma lookup_app (c : string) (l1 l2 : dirents) :
  lookup c (l1 ++ l2) =
  match lookup c l1 with Some x => Some x | None => lookup c l2 end.
Proof.
  induction l1 as [|[n y] rest IH]; simpl; auto.
  destruct (String.eqb c n); auto.
Qed.

Lemma put_dir_twice (e1 e2 : dirents) (fs : dirents) :
  put_dir e2 (put_dir e1 fs) = put_dir e2 fs.
Proof. apply set_entry_twice. Qed.

Lemma hard_docs_put_dir (ents : dirents) (fs : dirents) :
  hard_docs (put_dir ents fs) = Some (Dir ents).
Proof. apply lookup_set_entry_eq. Qed.

Lemma put_dir_same (ents : dirents) (fs : dirents) :
  hard_docs fs = Some (Dir ents) -> put_dir ents fs = fs.
Proof. apply set_entry_same. Qed.

Lemma docs_txt_put_dir (ents : dirents) (fs : dirents) :
  docs_txt (put_dir ents fs) = docs_txt fs.
Proof. apply lookup_set_entry_neq. discriminate. Qed.

Lemma docs_txt_remove (fs : dirents) :
  docs_txt (remove_entry "hard_docs" fs) = docs_txt fs.
Proof. apply lookup_remove_entry_neq. discriminate. Qed.

(** ** Text *)

Lemma length_append (s t : string) :
  String.length (s ++ t) = String.length s + String.length t.
Proof. induction s; simpl; auto. Qed.

Lemma append_inj_l (s1 s2 t : string) :
  (s1 ++ t = s2 ++ t)%string -> s1 = s2.
Proof.
  revert s2. induction s1 as [|c s1 IH]; intros [|d s2] H; simpl in *; auto.
  - apply (f_equal String.length) in H. simpl in H.
    rewrite length_append in H. lia.
  - apply (f_equal String.length) in H. simpl in H.
    rewrite length_append in H. lia.
  - inversion H. f_equal. now apply IH.
Qed.

Lemma str_inj (i j : nat) : str i = str j -> i = j.
Proof.
  unfold str. intros H.
  apply (f_equal NilEmpty.uint_of_string) in H.
  rewrite !NilEmpty.usu in H. inversion H.
  now apply Unsigned.to_uint_inj.
Qed.

Lemma fname_inj (i j : nat) : fname i = fname j -> i = j.
Proof. unfold fname. intros H. apply str_inj. eapply append_inj_l, H. Qed.

Lemma universal_newlines_no_cr (s : string) :
  has_cr s = false -> universal_newlines s = s.
Proof.
  induction s as [|c r IH]; simpl; auto.
  destruct (Ascii.eqb c CR); simpl; [discriminate|].
  intros H. now rewrite IH.
Qed.

(** ** The operations on the output directory *)

Section Steps.

Variable deny : op -> bool.
Variable reached : path -> nat.

Lemma state_eta (s : state) : mkState (cwd s) (stdout s) (trace s) = s.
Proof. now destruct s. Qed.

Lemma os_remove_entry (name : string) (x : node) (rest : dirents) (s : state) :
  hard_docs (cwd s) = Some (Dir ((name, x) :: rest)) ->
  os_remove deny ["hard_docs"; name] s =
  if deny (Remove ["hard_docs"; name])
  then (Raise (Exn OSError (Remove ["hard_docs"; name])), s)
  else match x with
       | Dir _ => (Raise (Exn IsADirectoryError (Remove ["hard_docs"; name])), s)
       | File _ =>
           (Ok tt, mkState (put_dir rest (cwd s)) (stdout s)
                     (trace s ++ [Remove ["hard_docs"; name]]))
       end.
Proof.
  unfold hard_docs, os_remove, update. intros H.
  destruct (deny _); [reflexivity|].
  simpl. rewrite H. simpl. rewrite String.eqb_refl.
  destruct x; reflexivity.
Qed.

Lemma open_w_fresh (name : string) (ents : dirents) (s : state) :
  hard_docs (cwd s) = Some (Dir ents) ->
  lookup name ents = None ->
  open_w deny ["hard_docs"; name] s =
  if deny (OpenW ["hard_docs"; name])
  then (Raise (Exn OSError (OpenW ["hard_docs"; name])), s)
  else (Ok ["hard_docs"; name],
        mkState (put_dir (ents ++ [(name, File "")]) (cwd s)) (stdout s)
          (trace s ++ [OpenW ["hard_docs"; name]])).
Proof.
  unfold hard_docs, open_w, bind, update, ret. intros H Hfresh.
  destruct (deny _); [reflexivity|].
  simpl. rewrite H, Hfresh.
  now rewrite (set_entry_absent _ _ _ Hfresh).
Qed.

Lemma f_write_opened (name text old : string) (ents : dirents) (s : state) :
  hard_docs (cwd s) = Some (Dir (ents ++ [(name, File old)])) ->
  lookup name ents = None ->
  f_write deny reached ["hard_docs"; name] text s =
  if deny (Write ["hard_docs"; name] text)
  then (Raise (Exn OSError (Write ["hard_docs"; name] text)),
        mkState
          (put_dir
             (ents ++ [(name, File (substring 0 (reached ["hard_docs"; name]) text))])
             (cwd s))
          (stdout s) (trace s))
  else (Ok tt,
        mkState (put_dir (ents ++ [(name, File text)]) (cwd s)) (stdout s)
          (trace s ++ [Write ["hard_docs"; name] text])).
Proof.
  unfold hard_docs, f_write. intros H Hfresh.
  assert (Hset : forall y,
    set_entry name y (ents ++ [(name, File old)]) = ents ++ [(name, y)]).
  { intros y. rewrite <- (set_entry_absent name (File old) ents Hfresh).
    rewrite set_entry_twice. now apply set_entry_absent. }
  assert (Hl : lookup name (ents ++ [(name, File old)]) = Some (File old)).
  { rewrite lookup_app, Hfresh. simpl. now rewrite String.eqb_refl. }
  destruct (deny _); simpl; rewrite H, Hl; simpl; now rewrite Hset.
Qed.

(** ** The two loops *)

Lemma removable_not_blocked (e : string * node) :
  removable deny e -> blocked deny e -> False.
Proof. unfold removable, blocked. intros [H1 H2] [H|H]; congruence. Qed.

(** The removals stop at the first entry that is blocked; the entries
    before it are gone, that entry and those after it stay. *)
Lemma cleanup_loop (ents : dirents) :
  forall (s : state) (r : result unit) (s' : state),
  hard_docs (cwd s) = Some (Dir ents) ->
  for_each (map fst ents)
    (fun filename => os_remove deny (os_path_join dir filename)) s = (r, s') ->
  (r = Ok tt /\ Forall (removable deny) ents /\
   s' = mkState (put_dir [] (cwd s)) (stdout s) (trace s ++ map rm_op ents))
  \/
  (exists k gone e rest,
     ents = gone ++ e :: rest /\ Forall (removable deny) gone /\ blocked deny e /\
     r = Raise (Exn k (rm_op e)) /\
     s' = mkState (put_dir (e :: rest) (cwd s)) (stdout s)
            (trace s ++ map rm_op gone)).
Proof.
  induction ents as [|[name x] rest IH]; intros s r s' Hd Hrun.
  - simpl in Hrun. inversion Hrun; subst. left. repeat split; auto.
    rewrite (put_dir_same _ _ Hd), app_nil_r. now rewrite state_eta.
  - simpl in Hrun. unfold bind in Hrun.
    change (os_path_join dir name) with ["hard_docs"; name] in Hrun.
    rewrite (os_remove_entry name x rest s Hd) in Hrun.
    destruct (deny (Remove ["hard_docs"; name])) eqn:Hdeny.
    { inversion Hrun; subst. right.
      exists OSError, [], (name, x), rest. repeat split; auto.
      - now right.
      - simpl. rewrite (put_dir_same _ _ Hd), app_nil_r. now rewrite state_eta. }
    destruct x as [c|sub].
    + match type of Hrun with
      | for_each _ _ ?s1 = _ => specialize (IH s1 r s')
      end.
      simpl in IH. rewrite hard_docs_put_dir in IH.
      destruct (IH eq_refl Hrun) as
        [(-> & Hall & ->)|(k & gone & e & rest' & -> & Hall & Hb & -> & ->)].
      * left. repeat split.
        -- constructor; auto. split; auto.
        -- rewrite put_dir_twice, <- app_assoc. reflexivity.
      * right. exists k, ((name, File c) :: gone), e, rest'. repeat split; auto.
        -- constructor; auto. split; auto.
        -- rewrite put_dir_twice, <- app_assoc. reflexivity.
    + inversion Hrun; subst. right.
      exists IsADirectoryError, [], (name, Dir sub), rest. repeat split; auto.
      * now left.
      * simpl. rewrite (put_dir_same _ _ Hd), app_nil_r. now rewrite state_eta.
Qed.

(** The generation loop from index [a] on, in a directory that holds none
    of the names it is going to write: it stops at the first refused open
    or write. *)
Lemma generate_loop (text : string) (n : nat) :
  forall (a : nat) (ents : dirents) (s : state) (r : result unit) (s' : state),
  hard_docs (cwd s) = Some (Dir ents) ->
  (forall i, a <= i -> lookup (fname i) ents = None) ->
  for_each (seq a n) (write_doc deny reached text) s = (r, s') ->
  (r = Ok tt /\
   s' = mkState (put_dir (ents ++ files_from text a n) (cwd s)) (stdout s)
          (trace s ++ gen_ops text a n))
  \/
  (exists j, j < n /\ deny (OpenW (out_path (a + j))) = true /\
     r = Raise (Exn OSError (OpenW (out_path (a + j)))) /\
     s' = mkState (put_dir (ents ++ files_from text a j) (cwd s)) (stdout s)
            (trace s ++ gen_ops text a j))
  \/
  (exists j, j < n /\
     deny (Write (out_path (a + j)) (fcontent text (a + j))) = true /\
     r = Raise (Exn OSError (Write (out_path (a + j)) (fcontent text (a + j)))) /\
     s' = mkState
            (put_dir
               (ents ++ files_from text a j ++
                [(fname (a + j),
                  File (substring 0 (reached (out_path (a + j)))
                          (fcontent text (a + j))))])
               (cwd s))
            (stdout s)
            (trace s ++ gen_ops text a j ++ [OpenW (out_path (a + j))])).
Proof.
  induction n as [|n IH]; intros a ents s r s' Hd Hfresh Hrun.
  - simpl in Hrun. inversion Hrun; subst. left. split; auto.
    unfold files_from, gen_ops. simpl.
    rewrite !app_nil_r, (put_dir_same _ _ Hd). now rewrite state_eta.
  - simpl in Hrun. unfold bind at 1, write_doc at 1, bind at 1 in Hrun.
    change (os_path_join dir (str a ++ ".txt")%string)
      with ["hard_docs"; fname a] in Hrun.
    change (str a ++ nl ++ text)%string with (fcontent text a) in Hrun.
    rewrite (open_w_fresh (fname a) ents s Hd (Hfresh a (le_n a))) in Hrun.
    destruct (deny (OpenW ["hard_docs"; fname a])) eqn:Hopen.
    { inversion Hrun; subst. right; left. exists 0.
      rewrite Nat.add_0_r. repeat split; auto; try lia.
      unfold files_from, gen_ops. simpl.
      rewrite !app_nil_r, (put_dir_same _ _ Hd). now rewrite state_eta. }
    match type of Hrun with
    | context [f_write _ _ _ _ ?s1] =>
        rewrite (f_write_opened (fname a) (fcontent text a) ""
                   ents s1) in Hrun;
          [ | simpl; now rewrite hard_docs_put_dir | now apply Hfresh ]
    end.
    simpl in Hrun. rewrite !put_dir_twice in Hrun.
    destruct (deny (Write ["hard_docs"; fname a] (fcontent text a))) eqn:Hwrite.
    { inversion Hrun; subst. right; right. exists 0.
      rewrite Nat.add_0_r. repeat split; auto; lia. }
    match type of Hrun with
    | for_each _ _ ?s2 = _ =>
        specialize (IH (S a) (ents ++ [out_file text a]) s2 r s')
    end.
    simpl in IH. rewrite put_dir_twice, hard_docs_put_dir in IH.
    assert (Hfresh' : forall i, S a <= i ->
              lookup (fname i) (ents ++ [out_file text a]) = None).
    { intros i Hi. rewrite lookup_app, Hfresh by lia. simpl.
      destruct (String.eqb (fname i) (fname a)) eqn:E; auto.
      apply String.eqb_eq, fname_inj in E. lia. }
    destruct (IH eq_refl Hfresh' Hrun) as
      [(-> & ->)|[(j & Hj & Hden & -> & ->)|(j & Hj & Hden & -> & ->)]].
    + left. split; auto.
      unfold files_from, gen_ops. simpl.
      rewrite ?put_dir_twice, <- ?app_assoc. reflexivity.
    + right; left. exists (S j).
      replace (a + S j) with (S a + j) by lia.
      repeat split; auto; try lia.
      unfold files_from, gen_ops. simpl.
      rewrite ?put_dir_twice, <- ?app_assoc. reflexivity.
    + right; right. exists (S j).
      replace (a + S j) with (S a + j) by lia.
      repeat split; auto; try lia.
      unfold files_from, gen_ops. simpl.
      rewrite ?put_dir_twice, <- ?app_assoc. reflexivity.
Qed.

(** ** The stages of the script *)

Lemma reset_outcome_at (s : state) (r : result unit) (s1 s2 : state) :
  s1 = s2 -> reset_outcome deny s r s1 -> reset_outcome deny s r s2.
Proof. now intros ->. Qed.

Lemma outcome_at (s : state) (r : result unit) (s1 s2 : state) :
  s1 = s2 -> outcome deny reached s r s1 -> outcome deny reached s r s2.
Proof. now intros ->. Qed.

Lemma docs_txt_installed (ents : dirents) (fs : dirents) :
  docs_txt (installed ents fs) = docs_txt fs.
Proof. unfold installed. now rewrite docs_txt_put_dir, docs_txt_remove. Qed.

Lemma hard_docs_installed (ents : dirents) (fs : dirents) :
  hard_docs (installed ents fs) = Some (Dir ents).
Proof. apply hard_docs_put_dir. Qed.

Lemma reset_cases (s : state) (r : result unit) (s' : state) :
  reset deny s = (r, s') -> reset_outcome deny s r s'.
Proof.
  unfold reset, bind, os_path_exists. simpl.
  fold (hard_docs (cwd s)).
  destruct (hard_docs (cwd s)) as [x|] eqn:Hd.
  - unfold os_listdir, query.
    destruct (deny (Listdir dir)) eqn:Hlist.
    { intros H; inversion H; subst. apply listdir_fails; [congruence|now left]. }
    simpl. fold (hard_docs (cwd s)). rewrite Hd.
    destruct x as [c|ents].
    { intros H; inversion H; subst. apply listdir_fails; [congruence|].
      right. now exists c. }
    destruct (for_each (map fst ents) _ _) as [r1 s1] eqn:Hloop.
    apply cleanup_loop with (ents := ents) in Hloop; [|exact Hd].
    destruct Hloop as
      [(-> & Hall & ->)|(k & gone & e & rest & -> & Hall & Hb & -> & ->)].
    + unfold os_rmdir, update.
      destruct (deny (Rmdir dir)) eqn:Hrmdir.
      { intros H; inversion H; subst. simpl.
        rewrite <- app_assoc. now apply rmdir_fails. }
      simpl. fold (hard_docs (put_dir [] (cwd s))).
      rewrite hard_docs_put_dir. intros H; inversion H; subst.
      eapply reset_outcome_at; [|apply reset_done].
      * unfold done, reset_ops, put_dir. simpl. rewrite Hd, remove_set_entry.
        now rewrite <- !app_assoc.
      * unfold reset_completes. rewrite Hd. auto.
    + intros H; inversion H; subst. simpl.
      rewrite <- app_assoc. now apply remove_fails.
  - intros H; inversion H; subst.
    eapply reset_outcome_at; [|apply reset_done].
    + unfold reset_ops. rewrite Hd, app_nil_r.
      rewrite remove_entry_absent by exact Hd. apply state_eta.
    + unfold reset_completes. now rewrite Hd.
Qed.

(** Every run ends in one of the outcomes. *)
Lemma script_cases (s : state) (r : result unit) (s' : state) :
  script deny reached s = (r, s') -> outcome deny reached s r s'.
Proof.
  unfold script, bind.
  destruct (reset deny s) as [[[]|e] s1] eqn:Hreset; apply reset_cases in Hreset.
  2:{ intros H; inversion H; subst. now apply reset_fails. }
  inversion Hreset as [Hrc| | |]; subst. clear Hreset.
  unfold os_mkdir, update.
  destruct (deny (Mkdir dir)) eqn:Hmk.
  { intros H; inversion H; subst. apply mkdir_fails; auto. }
  simpl. fold (hard_docs (remove_entry "hard_docs" (cwd s))).
  destruct (hard_docs (remove_entry "hard_docs" (cwd s))) eqn:Hgone.
  { intros H; inversion H; subst. apply mkdir_fails; auto. right. congruence. }
  fold (put_dir [] (remove_entry "hard_docs" (cwd s))).
  fold (installed [] (cwd s)).
  unfold read_docs, bind, open_r, query.
  destruct (deny (OpenR docs_path)) eqn:Hopen.
  { intros H; inversion H; subst. unfold done. simpl.
    rewrite <- app_assoc. apply open_fails; auto. }
  simpl. fold (docs_txt (installed [] (cwd s))). rewrite docs_txt_installed.
  destruct (docs_txt (cwd s)) as [[C|sub]|] eqn:Hdocs;
    try (intros H; inversion H; subst; unfold done; simpl;
         rewrite <- app_assoc; apply open_fails; auto;
         right; intros c; congruence).
  unfold f_read, query.
  destruct (deny (Read docs_path)) eqn:Hread.
  { intros H; inversion H; subst. unfold done. simpl.
    rewrite <- !app_assoc. apply read_fails with (C := C); auto. }
  simpl. fold (docs_txt (installed [] (cwd s))).
  rewrite docs_txt_installed, Hdocs.
  destruct (utf8_valid C) eqn:Hvalid.
  2:{ intros H; inversion H; subst. unfold done. simpl.
      rewrite <- !app_assoc. apply read_fails with (C := C); auto. }
  assert (Hready : ready deny (cwd s) C) by (unfold ready; auto 10).
  unfold generate, range.
  destruct (for_each (seq 0 51) _ _) as [r1 s1] eqn:Hloop.
  apply generate_loop with (ents := []) in Hloop;
    [|apply hard_docs_installed|reflexivity].
  simpl cwd in Hloop. simpl stdout in Hloop. simpl trace in Hloop.
  simpl app in Hloop. unfold installed in Hloop.
  rewrite !put_dir_twice in Hloop.
  fold (installed (files_from (universal_newlines C) 0 51) (cwd s)) in Hloop.
  destruct Hloop as
    [(-> & ->)|[(j & Hj & Hden & -> & ->)|(j & Hj & Hden & -> & ->)]].
  - unfold print.
    destruct (deny (Print success_message)) eqn:Hprint.
    + intros H; inversion H; subst.
      eapply outcome_at; [|apply print_fails with (C := C); auto].
      unfold setup_ops. now rewrite <- !app_assoc.
    + intros H; inversion H; subst. simpl.
      eapply outcome_at; [|apply completes with (C := C); auto].
      unfold setup_ops. now rewrite <- !app_assoc.
  - intros H; inversion H; subst.
    eapply outcome_at; [|apply create_fails with (C := C) (j := j); auto].
    unfold setup_ops, out_files, installed.
    now rewrite ?put_dir_twice, <- !app_assoc.
  - intros H; inversion H; subst.
    eapply outcome_at; [|apply write_fails with (C := C) (j := j); auto].
    unfold setup_ops, out_files, installed, torn_file.
    now rewrite ?put_dir_twice, <- !app_assoc.
Qed.

End Steps.

(** ** Runs *)

Lemma run_cases (deny : op -> bool) (reached : path -> nat)
    (argv : list string) (environ : list (string * string)) (fs : dirents)
    (r : result unit) (s' : state) :
  run deny reached argv environ fs = (r, s') ->
  outcome deny reached (boot fs) r s'.
Proof. apply script_cases. Qed.

Lemma printed_app (t1 t2 : list op) :
  printed (t1 ++ t2) = printed t1 ++ printed t2.
Proof. apply flat_map_app. Qed.

Lemma printed_rm_ops (ents : dirents) : printed (map rm_op ents) = [].
Proof. induction ents; simpl; auto. Qed.

Lemma printed_gen_ops (text : string) (n a : nat) :
  printed (gen_ops text a n) = [].
Proof.
  unfold gen_ops. revert a. induction n as [|n IH]; intros a; simpl; auto.
Qed.

Lemma printed_reset_ops (fs : dirents) : printed (reset_ops fs) = [].
Proof.
  unfold reset_ops. destruct (hard_docs fs) as [[c|ents]|]; auto.
  change (Listdir ["hard_docs"] :: map rm_op ents ++ [Rmdir ["hard_docs"]])
    with ([Listdir ["hard_docs"]] ++ map rm_op ents ++ [Rmdir ["hard_docs"]]).
  now rewrite !printed_app, printed_rm_ops.
Qed.

Lemma printed_setup_ops (fs : dirents) : printed (setup_ops fs) = [].
Proof. unfold setup_ops. now rewrite printed_app, printed_reset_ops. Qed.

Lemma opened_app (t1 t2 : list op) :
  opened (t1 ++ t2) = opened t1 ++ opened t2.
Proof. apply flat_map_app. Qed.

Lemma opened_rm_ops (ents : dirents) : opened (map rm_op ents) = [].
Proof. induction ents; simpl; auto. Qed.

Lemma opened_reset_ops (fs : dirents) : opened (reset_ops fs) = [].
Proof.
  unfold reset_ops. destruct (hard_docs fs) as [[c|ents]|]; auto.
  change (Listdir ["hard_docs"] :: map rm_op ents ++ [Rmdir ["hard_docs"]])
    with ([Listdir ["hard_docs"]] ++ map rm_op ents ++ [Rmdir ["hard_docs"]]).
  now rewrite !opened_app, opened_rm_ops.
Qed.

(** A failing reset prints nothing. *)
Lemma reset_outcome_quiet (deny : op -> bool) (s : state)
    (r : result unit) (s' : state) :
  reset_outcome deny s r s' ->
  stdout s' = stdout s /\ printed (trace s') = printed (trace s).
Proof.
  intros H; destruct H; simpl; split; auto;
    rewrite ?printed_app; simpl; rewrite ?printed_app;
    rewrite ?printed_reset_ops, ?printed_rm_ops, ?app_nil_r; auto.
Qed.

(** The message is printed by the runs that succeed, once, and by no
    other. *)
Lemma outcome_message (deny : op -> bool) (reached : path -> nat)
    (s : state) (r : result unit) (s' : state) :
  outcome deny reached s r s' ->
  match r with
  | Ok _ =>
      stdout s' = (stdout s ++ success_message ++ nl)%string /\
      printed (trace s') = printed (trace s) ++ [success_message]
  | Raise _ =>
      stdout s' = stdout s /\ printed (trace s') = printed (trace s)
  end.
Proof.
  intros H; destruct H; simpl;
    try (split; [reflexivity|]);
    rewrite ?printed_app; simpl; rewrite ?printed_app;
    rewrite ?printed_setup_ops, ?printed_reset_ops, ?printed_gen_ops,
      ?app_nil_r; auto.
  eapply reset_outcome_quiet; eauto.
Qed.

(** What a successful run leaves. *)
Lemma run_ok_inv (deny : op -> bool) (reached : path -> nat)
    (argv : list string) (environ : list (string * string)) (fs : dirents)
    (s' : state) :
  run deny reached argv environ fs = (Ok tt, s') ->
  exists C,
    ready deny fs C /\
    s' = mkState (installed (out_files (universal_newlines C) 51) fs)
           (success_message ++ nl)%string
           (setup_ops fs ++ gen_ops (universal_newlines C) 0 51 ++
            [Print success_message]).
Proof.
  intros H. apply run_cases in H.
  inversion H as [ | | | | | | |C Hready]; subst.
  exists C. split; auto.
Qed.

(** * The claims of the specification *)

(** C1, as the script has it.  After a successful run the output directory
    holds exactly the 51 entries 0.txt ... 50.txt, in this order and nothing
    else, whatever it held before; the file of index i holds the decimal
    string of i, a line feed, and the text of docs.txt as text mode reads
    it, every CR LF and every lone CR turned into a line feed.  When the
    content C of docs.txt has no carriage return, that text is C itself. *)
Theorem C1_output_directory (deny : op -> bool) (reached : path -> nat)
    (argv : list string) (environ : list (string * string))
    (fs : dirents) (C : string) (s' : state) :
  docs_txt fs = Some (File C) ->
  run deny reached argv environ fs = (Ok tt, s') ->
  hard_docs (cwd s') =
    Some (Dir (map (fun i => ((str i ++ ".txt")%string,
                              File (str i ++ nl ++ universal_newlines C)%string))
                 (range 51))) /\
  (has_cr C = false ->
   hard_docs (cwd s') =
     Some (Dir (map (fun i => ((str i ++ ".txt")%string,
                               File (str i ++ nl ++ C)%string))
                  (range 51)))).
Proof.
  intros Hdocs Hrun.
  apply run_ok_inv in Hrun. destruct Hrun as (C' & Hready & ->).
  destruct Hready as (_ & _ & _ & _ & Hdocs' & _).
  rewrite Hdocs in Hdocs'. inversion Hdocs'; subst C'.
  assert (H : hard_docs (installed (out_files (universal_newlines C) 51) fs) =
              Some (Dir (out_files (universal_newlines C) 51)))
    by apply hard_docs_installed.
  split.
  - exact H.
  - intros Hcr. simpl cwd. rewrite H.
    now rewrite (universal_newlines_no_cr C Hcr).
Qed.

Lemma C1_output_directory_witness :
  hard_docs (cwd (snd (run no_faults nothing_reached [] [] fs_hello))) =
    Some (Dir (map (fun i => ((str i ++ ".txt")%string,
                              File (str i ++ nl ++
                                    universal_newlines hello_world)%string))
                 (range 51))) /\
  (has_cr hello_world = false ->
   hard_docs (cwd (snd (run no_faults nothing_reached [] [] fs_hello))) =
     Some (Dir (map (fun i => ((str i ++ ".txt")%string,
                               File (str i ++ nl ++ hello_world)%string))
                  (range 51)))).
Proof.
  apply (C1_output_directory no_faults nothing_reached [] [] fs_hello
           hello_world).
  - reflexivity.
  - vm_compute. reflexivity.
Defined.

(** C1 as stated fails on a document with a carriage return.  docs.txt
    holds a, CR, LF, b; the run succeeds and leaves docs.txt as it was, and
    0.txt holds 0, LF, a, LF, b: the carriage return of the document is not
    in the output file. *)
Lemma C1_carriage_return_lost :
  exists s',
    run no_faults nothing_reached [] [] fs_crlf = (Ok tt, s') /\
    docs_txt (cwd s') = Some (File crlf_text) /\
    resolve ["hard_docs"; "0.txt"] (cwd s') =
      inr (File ("0" ++ nl ++ "a" ++ nl ++ "b")%string) /\
    resolve ["hard_docs"; "0.txt"] (cwd s') <>
      inr (File (str 0 ++ nl ++ crlf_text)%string).
Proof.
  eexists. split; [vm_compute; reflexivity|].
  split; [reflexivity|]. split; [reflexivity|].
  vm_compute. discriminate.
Qed.

(** A reset whose directory holds only files, in an environment that
    refuses none of its operations, completes. *)
Lemma reset_flat_completes (deny : op -> bool) (s : state) (ents : dirents) :
  hard_docs (cwd s) = Some (Dir ents) ->
  Forall (fun e => is_file (snd e) = true) ents ->
  deny (Listdir ["hard_docs"]) = false ->
  Forall (fun e => deny (rm_op e) = false) ents ->
  deny (Rmdir ["hard_docs"]) = false ->
  reset_completes deny (cwd s).
Proof.
  intros Hd Hfiles Hl Hrm Hr. unfold reset_completes. rewrite Hd.
  repeat split; auto.
  rewrite Forall_forall in *. intros e He. split; auto.
Qed.

Lemma reset_completes_not_fails (deny : op -> bool) (s : state)
    (e : exn) (s' : state) :
  reset_completes deny (cwd s) ->
  reset_outcome deny s (Raise e) s' -> False.
Proof.
  unfold reset_completes. intros Hc H.
  inversion H as
    [|k Hne [Hden|(c & Hc')]|k gone b rest Hd Hall Hb|ents Hd Hall Hden];
    subst.
  - destruct (hard_docs (cwd s')) as [[c|ents]|]; try contradiction.
    destruct Hc as (Hl & _). congruence.
  - rewrite Hc' in Hc. contradiction.
  - rewrite Hd in Hc. destruct Hc as (_ & Hrem & _).
    apply Forall_app in Hrem. destruct Hrem as (_ & Hrem).
    inversion Hrem; subst.
    eapply removable_not_blocked; eauto.
  - rewrite Hd in Hc. destruct Hc as (_ & _ & Hr). congruence.
Qed.

Lemma reset_completes_ok (deny : op -> bool) (s : state) :
  reset_completes deny (cwd s) ->
  reset deny s =
    (Ok tt, mkState (remove_entry "hard_docs" (cwd s)) (stdout s)
              (trace s ++ reset_ops (cwd s))).
Proof.
  intros Hc. destruct (reset deny s) as [[[]|e] s'] eqn:E;
    apply reset_cases in E.
  - now inversion E.
  - exfalso. eapply reset_completes_not_fails; eauto.
Qed.

(** A run whose setup succeeds, in an environment that refuses none of the
    operations of the generation loop nor the final print, succeeds. *)
Lemma run_completes (deny : op -> bool) (reached : path -> nat)
    (argv : list string) (environ : list (string * string))
    (fs : dirents) (C : string) :
  ready deny fs C ->
  (forall i c, deny (OpenW (out_path i)) = false /\
               deny (Write (out_path i) c) = false) ->
  deny (Print success_message) = false ->
  run deny reached argv environ fs =
    (Ok tt,
     mkState (installed (out_files (universal_newlines C) 51) fs)
       (success_message ++ nl)%string
       (setup_ops fs ++ gen_ops (universal_newlines C) 0 51 ++
        [Print success_message])).
Proof.
  intros Hready Hgen Hprint.
  destruct (run deny reached argv environ fs) as [r s'] eqn:E.
  apply run_cases in E.
  pose proof Hready as (Hrc & Hmk & Hgone & Hopen & Hdocs & Hread & Hvalid).
  unfold success_message in *.
  inversion E; subst; cbn [cwd boot] in *; try congruence;
    repeat match goal with
    | H : reset_outcome _ _ (Raise _) _ |- _ =>
        exfalso; eapply reset_completes_not_fails; [|exact H]; exact Hrc
    | H : _ \/ _ |- _ => destruct H; try congruence
    | H : forall c, docs_txt fs <> Some (File c) |- _ =>
        exfalso; now apply (H C)
    | H : deny (OpenW (out_path ?j)) = true |- _ =>
        destruct (Hgen j ""%string); congruence
    | H : deny (Write (out_path ?j) ?c) = true |- _ =>
        destruct (Hgen j c); congruence
    | H : ready deny fs ?C' |- _ =>
        destruct H as (_ & _ & _ & _ & Hdocs' & _);
        rewrite Hdocs in Hdocs'; now inversion Hdocs'
    end.
Qed.

(** C2.  The reset step.  If the output directory does not exist the step
    leaves the state as it is.  If it exists, holds only files, and the
    environment refuses nothing, the step lists it, removes its entries one
    by one in the order of the listing (never looking inside an entry), then
    removes the directory itself.  And whenever the step completes on an
    existing path, from whatever state and in whatever environment, this is
    what it has done. *)
Theorem C2_reset_contract (deny : op -> bool) (s : state) :
  (hard_docs (cwd s) = None -> reset deny s = (Ok tt, s)) /\
  (forall ents,
     hard_docs (cwd s) = Some (Dir ents) ->
     Forall (fun e => is_file (snd e) = true) ents ->
     deny (Listdir dir) = false ->
     Forall (fun e => deny (Remove (os_path_join dir (fst e))) = false) ents ->
     deny (Rmdir dir) = false ->
     reset deny s =
       (Ok tt,
        mkState (remove_entry "hard_docs" (cwd s)) (stdout s)
          (trace s ++
           [Listdir dir] ++
           map (fun e => Remove (os_path_join dir (fst e))) ents ++
           [Rmdir dir]))) /\
  (forall s',
     hard_docs (cwd s) <> None ->
     reset deny s = (Ok tt, s') ->
     exists ents,
       hard_docs (cwd s) = Some (Dir ents) /\
       s' = mkState (remove_entry "hard_docs" (cwd s)) (stdout s)
              (trace s ++
               [Listdir dir] ++
               map (fun e => Remove (os_path_join dir (fst e))) ents ++
               [Rmdir dir])).
Proof.
  split; [|split].
  - intros Hd. unfold reset, bind, os_path_exists. simpl.
    fold (hard_docs (cwd s)). now rewrite Hd.
  - intros ents Hd Hfiles Hl Hrm Hr.
    rewrite reset_completes_ok.
    + unfold reset_ops. rewrite Hd. reflexivity.
    + eapply reset_flat_completes; eauto.
  - intros s' Hne Hrun. apply reset_cases in Hrun.
    inversion Hrun as [Hc| | |]; subst.
    unfold reset_completes in Hc. unfold reset_ops.
    destruct (hard_docs (cwd s)) as [[c|ents]|]; try contradiction.
    exists ents. split; reflexivity.
Qed.

Lemma C2_reset_contract_witness :
  reset no_faults (boot fs_hello) =
    (Ok tt,
     mkState [("docs.txt", File hello_world)] ""
       [Listdir ["hard_docs"]; Remove ["hard_docs"; "stale.txt"];
        Rmdir ["hard_docs"]]) /\
  reset no_faults (boot fs_plain) = (Ok tt, boot fs_plain).
Proof.
  split.
  - apply (proj1 (proj2 (C2_reset_contract no_faults (boot fs_hello)))
             [("stale.txt", File "old")]).
    + reflexivity.
    + repeat constructor.
    + reflexivity.
    + repeat constructor.
    + reflexivity.
  - apply (proj1 (C2_reset_contract no_faults (boot fs_plain))).
    reflexivity.
Defined.

Lemma remove_installed (ents : dirents) (fs : dirents) :
  hard_docs (remove_entry "hard_docs" fs) = None ->
  remove_entry "hard_docs" (installed ents fs) = remove_entry "hard_docs" fs.
Proof.
  intros H. unfold installed, put_dir. rewrite remove_set_entry.
  now apply remove_entry_absent.
Qed.

Lemma installed_twice (e1 e2 : dirents) (fs : dirents) :
  hard_docs (remove_entry "hard_docs" fs) = None ->
  installed e2 (installed e1 fs) = installed e2 fs.
Proof.
  intros H. unfold installed at 1. now rewrite remove_installed.
Qed.

Lemma out_files_are_files (text : string) (a n : nat) :
  Forall (fun e => is_file (snd e) = true) (files_from text a n).
Proof.
  unfold files_from. apply Forall_forall. intros e He.
  apply in_map_iff in He. destruct He as (i & <- & _). reflexivity.
Qed.

(** C3.  Two runs in succession.  The first run leaves docs.txt as it was.
    If the second run succeeds too, it leaves the output directory, and the
    whole working directory, exactly as the first run left it; and the
    second run does succeed when its environment refuses nothing. *)
Theorem C3_idempotent (deny1 deny2 : op -> bool) (reached1 reached2 : path -> nat)
    (argv1 argv2 : list string) (environ1 environ2 : list (string * string))
    (fs : dirents) (C : string) (s1 : state) :
  docs_txt fs = Some (File C) ->
  run deny1 reached1 argv1 environ1 fs = (Ok tt, s1) ->
  docs_txt (cwd s1) = Some (File C) /\
  (forall s2,
     run deny2 reached2 argv2 environ2 (cwd s1) = (Ok tt, s2) ->
     hard_docs (cwd s2) = hard_docs (cwd s1) /\ cwd s2 = cwd s1) /\
  ((forall o, deny2 o = false) ->
   exists s2, run deny2 reached2 argv2 environ2 (cwd s1) = (Ok tt, s2)).
Proof.
  intros Hdocs Hrun1.
  apply run_ok_inv in Hrun1. destruct Hrun1 as (C1 & Hready1 & ->).
  pose proof Hready1 as (_ & _ & Hgone & _ & Hdocs1 & _ & Hvalid).
  rewrite Hdocs in Hdocs1. inversion Hdocs1; subst C1. clear Hdocs1.
  cbn [cwd].
  assert (Hd1 : docs_txt (installed (out_files (universal_newlines C) 51) fs)
                = Some (File C))
    by now rewrite docs_txt_installed.
  split; [exact Hd1|]. split.
  - intros s2 Hrun2.
    apply run_ok_inv in Hrun2. destruct Hrun2 as (C2 & Hready2 & ->).
    destruct Hready2 as (_ & _ & _ & _ & Hdocs2 & _).
    rewrite Hd1 in Hdocs2. inversion Hdocs2; subst C2.
    cbn [cwd]. rewrite installed_twice by exact Hgone. split; reflexivity.
  - intros Hquiet. eexists.
    apply run_completes with (C := C); auto.
    unfold ready. rewrite remove_installed by exact Hgone.
    repeat split; auto.
    unfold reset_completes. rewrite hard_docs_installed.
    repeat split; auto.
    apply Forall_forall. intros e He. split; auto.
    pose proof (out_files_are_files (universal_newlines C) 0 51) as Hf.
    rewrite Forall_forall in Hf. now apply Hf.
Qed.

Lemma C3_idempotent_witness :
  docs_txt (cwd (snd (run no_faults nothing_reached [] [] fs_hello))) =
    Some (File hello_world) /\
  (forall s2,
     run no_faults nothing_reached [] []
       (cwd (snd (run no_faults nothing_reached [] [] fs_hello))) =
       (Ok tt, s2) ->
     hard_docs (cwd s2) =
       hard_docs (cwd (snd (run no_faults nothing_reached [] [] fs_hello))) /\
     cwd s2 = cwd (snd (run no_faults nothing_reached [] [] fs_hello))) /\
  ((forall o, no_faults o = false) ->
   exists s2,
     run no_faults nothing_reached [] []
       (cwd (snd (run no_faults nothing_reached [] [] fs_hello))) =
       (Ok tt, s2)).
Proof.
  apply (C3_idempotent no_faults no_faults nothing_reached nothing_reached
           [] [] [] [] fs_hello hello_world).
  - reflexivity.
  - vm_compute. reflexivity.
Defined.

Lemma lookup_not_in (c : string) (ents : dirents) :
  ~ In c (map fst ents) -> lookup c ents = None.
Proof.
  induction ents as [|[n y] rest IH]; simpl; auto.
  intros H. destruct (String.eqb c n) eqn:E.
  - apply String.eqb_eq in E. subst. exfalso. apply H. now left.
  - apply IH. intros Hin. apply H. now right.
Qed.

(** In a directory without duplicate names, a removed name is absent. *)
Lemma lookup_removed (c : string) (ents : dirents) :
  NoDup (map fst ents) -> lookup c (remove_entry c ents) = None.
Proof.
  induction ents as [|[n y] rest IH]; simpl; auto.
  intros H. inversion H as [|? ? Hnot Hrest]; subst.
  destruct (String.eqb c n) eqn:E.
  - apply String.eqb_eq in E. subst. now apply lookup_not_in.
  - simpl. rewrite E. now apply IH.
Qed.

(** C4, as the script has it.  The names of the working directory are
    distinct, as the names of a directory are.  When docs.txt does not exist
    the run ends in a propagated exception, prints nothing and opens no
    output file.  When the reset step completes, hard_docs is left absent
    or empty, as the claim says.  Only when the reset step itself fails is
    it left otherwise, namely as the failed reset left it: untouched when
    the listing failed, empty when only the rmdir failed, and else with the
    entry that could not be removed and all the entries listed after it,
    which may be a complete set of 51 files of an earlier run. *)
Theorem C4_missing_source (deny : op -> bool) (reached : path -> nat)
    (argv : list string) (environ : list (string * string)) (fs : dirents) :
  NoDup (map fst fs) ->
  docs_txt fs = None ->
  exists e s',
    run deny reached argv environ fs = (Raise e, s') /\
    stdout s' = ""%string /\
    printed (trace s') = [] /\
    opened (trace s') = [] /\
    match reset deny (boot fs) with
    | (Ok _, _) =>
        hard_docs (cwd s') = None \/ hard_docs (cwd s') = Some (Dir [])
    | (Raise e1, s1) =>
        e = e1 /\ s' = s1 /\
        (hard_docs (cwd s') = hard_docs fs \/
         hard_docs (cwd s') = Some (Dir []) \/
         exists gone b rest,
           hard_docs fs = Some (Dir (gone ++ b :: rest)) /\
           blocked deny b /\
           hard_docs (cwd s') = Some (Dir (b :: rest)))
    end.
Proof.
  intros Hnodup Hdocs.
  destruct (reset deny (boot fs)) as [[[]|e1] s1] eqn:Hreset.
  - destruct (run deny reached argv environ fs) as [r s'] eqn:E.
    apply run_cases in E. pose proof (outcome_message _ _ _ _ _ E) as Hmsg.
    apply reset_cases in Hreset.
    assert (Hrc : reset_completes deny fs) by now inversion Hreset.
    assert (Hnot : forall C, ready deny fs C -> False).
    { intros C (_ & _ & _ & _ & H & _). congruence. }
    inversion E as
      [e s2 Hfails| | |k C| C j Hr | C j Hr | C Hr | C Hr];
      subst; cbn [cwd boot stdout trace] in *;
      try (exfalso; eapply Hnot; eassumption); try congruence;
      destruct Hmsg as (Hout & Hpr).
    + exfalso. eapply reset_completes_not_fails; [|exact Hfails]. exact Hrc.
    + eexists; eexists. split; [reflexivity|]. split; [exact Hout|].
      split; [exact Hpr|]. cbn [cwd trace].
      split; [now rewrite !opened_app, opened_reset_ops|].
      left. now apply lookup_removed.
    + eexists; eexists. split; [reflexivity|]. split; [exact Hout|].
      split; [exact Hpr|]. cbn [cwd trace].
      split; [now rewrite !opened_app, opened_reset_ops|].
      right. apply hard_docs_installed.
  - exists e1, s1.
    split; [unfold run, script, bind; now rewrite Hreset|].
    apply reset_cases in Hreset.
    destruct (reset_outcome_quiet _ _ _ _ Hreset) as (Hout & Hpr).
    split; [exact Hout|]. split; [exact Hpr|].
    inversion Hreset; subst; cbn [cwd boot trace app].
    + split; [reflexivity|]. repeat split. left. reflexivity.
    + split; [exact (opened_rm_ops gone)|]. repeat split.
      right; right. eexists; eexists; eexists.
      split; [eassumption|]. split; [assumption|]. apply hard_docs_put_dir.
    + split; [exact (opened_rm_ops ents)|]. repeat split.
      right; left. apply hard_docs_put_dir.
Qed.

Lemma C4_missing_source_witness :
  exists e s',
    run no_faults nothing_reached [] [] fs_no_docs = (Raise e, s') /\
    stdout s' = ""%string /\
    printed (trace s') = [] /\
    opened (trace s') = [] /\
    match reset no_faults (boot fs_no_docs) with
    | (Ok _, _) =>
        hard_docs (cwd s') = None \/ hard_docs (cwd s') = Some (Dir [])
    | (Raise e1, s1) =>
        e = e1 /\ s' = s1 /\
        (hard_docs (cwd s') = hard_docs fs_no_docs \/
         hard_docs (cwd s') = Some (Dir []) \/
         exists gone b rest,
           hard_docs fs_no_docs = Some (Dir (gone ++ b :: rest)) /\
           blocked no_faults b /\
           hard_docs (cwd s') = Some (Dir (b :: rest)))
    end.
Proof.
  apply (C4_missing_source no_faults nothing_reached [] [] fs_no_docs).
  - repeat constructor. simpl. tauto.
  - reflexivity.
Defined.

(** C4 as stated fails when the reset fails before it removes anything.
    docs.txt is missing; the output directory holds the 51 files of an
    earlier run and a subdirectory that is listed first.  The run stops at
    the removal of the subdirectory, and the complete set of 51 files is
    still there. *)
Lemma C4_complete_set_survives :
  docs_txt fs_no_docs_full = None /\
  exists s',
    run no_faults nothing_reached [] [] fs_no_docs_full =
      (Raise (Exn IsADirectoryError (Remove ["hard_docs"; "sub"])), s') /\
    hard_docs (cwd s') <> None /\
    forall i, i < 51 ->
      resolve (out_path i) (cwd s') = inr (File (fcontent "previous" i)).
Proof.
  split; [reflexivity|].
  eexists. split; [vm_compute; reflexivity|].
  split; [discriminate|].
  intros i Hi.
  do 51 (destruct i as [|i]; [vm_compute; reflexivity|]).
  lia.
Qed.

(** C5.  An entry of the output directory that cannot be removed, because
    it is a subdirectory or because the environment refuses its removal,
    makes the reset step fail.  The exception is the result of the whole
    run, and nothing has been printed. *)
Theorem C5_unremovable_entry (deny : op -> bool) (reached : path -> nat)
    (argv : list string) (environ : list (string * string))
    (fs : dirents) (ents : dirents) (name : string) (x : node) :
  hard_docs fs = Some (Dir ents) ->
  In (name, x) ents ->
  is_file x = false \/ deny (Remove (os_path_join dir name)) = true ->
  exists e s',
    reset deny (boot fs) = (Raise e, s') /\
    run deny reached argv environ fs = (Raise e, s') /\
    stdout s' = ""%string /\
    printed (trace s') = [].
Proof.
  intros Hd Hin Hblocked.
  destruct (reset deny (boot fs)) as [[[]|e] s'] eqn:E.
  - exfalso. apply reset_cases in E. inversion E as [Hc| | |]; subst.
    unfold reset_completes in Hc. cbn [cwd boot] in Hc. rewrite Hd in Hc.
    destruct Hc as (_ & Hall & _).
    rewrite Forall_forall in Hall.
    eapply removable_not_blocked; [apply (Hall _ Hin)|exact Hblocked].
  - exists e, s'. split; [reflexivity|].
    split.
    + unfold run, script, bind. now rewrite E.
    + apply reset_cases, reset_outcome_quiet in E. exact E.
Qed.

Lemma C5_unremovable_entry_witness :
  exists e s',
    reset no_faults (boot fs_subdir) = (Raise e, s') /\
    run no_faults nothing_reached [] [] fs_subdir = (Raise e, s') /\
    stdout s' = ""%string /\
    printed (trace s') = [].
Proof.
  apply (C5_unremovable_entry no_faults nothing_reached [] [] fs_subdir
           [("a.txt", File "a"); ("sub", Dir []); ("b.txt", File "b")]
           "sub" (Dir [])).
  - reflexivity.
  - simpl. tauto.
  - left. reflexivity.
Defined.

(** C6.  The scenario of the specification.  docs.txt holds Hello, line
    feed, World.  A successful run leaves in 7.txt exactly 7, line feed,
    Hello, line feed, World, with nothing after it, and its whole output is
    the line of the success message. *)
Theorem C6_hello_world (deny : op -> bool) (reached : path -> nat)
    (argv : list string) (environ : list (string * string))
    (fs : dirents) (s' : state) :
  docs_txt fs = Some (File ("Hello" ++ nl ++ "World")%string) ->
  run deny reached argv environ fs = (Ok tt, s') ->
  resolve ["hard_docs"; "7.txt"] (cwd s') =
    inr (File ("7" ++ nl ++ "Hello" ++ nl ++ "World")%string) /\
  stdout s' = ("Files created successfully." ++ nl)%string.
Proof.
  intros Hdocs Hrun.
  apply run_ok_inv in Hrun. destruct Hrun as (C & Hready & ->).
  destruct Hready as (_ & _ & _ & _ & Hdocs' & _).
  rewrite Hdocs in Hdocs'. inversion Hdocs'; subst C.
  split; [|reflexivity].
  cbn [cwd]. unfold resolve.
  change (lookup "hard_docs" ?fs) with (hard_docs fs).
  rewrite hard_docs_installed. vm_compute. reflexivity.
Qed.

Lemma C6_hello_world_witness :
  resolve ["hard_docs"; "7.txt"]
    (cwd (snd (run no_faults nothing_reached [] [] fs_hello))) =
    inr (File ("7" ++ nl ++ "Hello" ++ nl ++ "World")%string) /\
  stdout (snd (run no_faults nothing_reached [] [] fs_hello)) =
    ("Files created successfully." ++ nl)%string.
Proof.
  apply (C6_hello_world no_faults nothing_reached [] [] fs_hello).
  - reflexivity.
  - vm_compute. reflexivity.
Defined.

(** C7.  A run that succeeds prints the success message exactly once: the
    message is all of its output, the print is the last operation of its
    trace, and the 51 pairs of open and write of the generation loop come
    right before it, with all 51 files on the disk.  A run that fails, at
    whatever operation, has printed nothing. *)
Theorem C7_message_once_at_the_end (deny : op -> bool) (reached : path -> nat)
    (argv : list string) (environ : list (string * string))
    (fs : dirents) (r : result unit) (s' : state) :
  run deny reached argv environ fs = (r, s') ->
  match r with
  | Ok _ =>
      stdout s' = (success_message ++ nl)%string /\
      printed (trace s') = [success_message] /\
      exists before text,
        trace s' =
          before ++
          flat_map (fun i =>
                      [OpenW (os_path_join dir (str i ++ ".txt")%string);
                       Write (os_path_join dir (str i ++ ".txt")%string)
                         (str i ++ nl ++ text)%string])
            (range 51) ++
          [Print success_message] /\
        printed before = [] /\
        hard_docs (cwd s') = Some (Dir (out_files text 51))
  | Raise _ =>
      stdout s' = ""%string /\ printed (trace s') = []
  end.
Proof.
  intros Hrun. apply run_cases in Hrun.
  pose proof (outcome_message _ _ _ _ _ Hrun) as Hmsg.
  destruct r as [[]|e]; [|exact Hmsg].
  destruct Hmsg as (Hout & Hpr). split; [exact Hout|]. split; [exact Hpr|].
  inversion Hrun as [ | | | | | | |C Hready]; subst.
  exists (setup_ops fs), (universal_newlines C). cbn [cwd trace boot].
  split; [reflexivity|]. split; [apply printed_setup_ops|].
  apply hard_docs_installed.
Qed.

Lemma C7_message_once_at_the_end_witness :
  match fst (run no_faults nothing_reached [] [] fs_hello) with
  | Ok _ =>
      stdout (snd (run no_faults nothing_reached [] [] fs_hello)) =
        (success_message ++ nl)%string /\
      printed (trace (snd (run no_faults nothing_reached [] [] fs_hello))) =
        [success_message] /\
      exists before text,
        trace (snd (run no_faults nothing_reached [] [] fs_hello)) =
          before ++
          flat_map (fun i =>
                      [OpenW (os_path_join dir (str i ++ ".txt")%string);
                       Write (os_path_join dir (str i ++ ".txt")%string)
                         (str i ++ nl ++ text)%string])
            (range 51) ++
          [Print success_message] /\
        printed before = [] /\
        hard_docs (cwd (snd (run no_faults nothing_reached [] [] fs_hello))) =
          Some (Dir (out_files text 51))
  | Raise _ =>
      stdout (snd (run no_faults nothing_reached [] [] fs_hello)) = ""%string /\
      printed (trace (snd (run no_faults nothing_reached [] [] fs_hello))) = []
  end.
Proof.
  apply (C7_message_once_at_the_end no_faults nothing_reached [] [] fs_hello).
  apply surjective_pairing.
Defined.

(** C8, as the script has it.  Two runs that succeed on documents with the
    same content leave the same output directory and print the same output,
    whatever else differs between them: what the working directory held
    before, what the environment refuses elsewhere, the command line and
    the environment variables.  And the last two have no influence on any
    run, successful or not. *)
Theorem C8_deterministic_output :
  (forall (deny1 deny2 : op -> bool) (reached1 reached2 : path -> nat)
          (argv1 argv2 : list string)
          (environ1 environ2 : list (string * string))
          (fs1 fs2 : dirents) (C : string) (s1 s2 : state),
     docs_txt fs1 = Some (File C) ->
     docs_txt fs2 = Some (File C) ->
     run deny1 reached1 argv1 environ1 fs1 = (Ok tt, s1) ->
     run deny2 reached2 argv2 environ2 fs2 = (Ok tt, s2) ->
     hard_docs (cwd s1) = hard_docs (cwd s2) /\ stdout s1 = stdout s2) /\
  (forall (deny : op -> bool) (reached : path -> nat)
          (argv1 argv2 : list string)
          (environ1 environ2 : list (string * string)) (fs : dirents),
     run deny reached argv1 environ1 fs = run deny reached argv2 environ2 fs).
Proof.
  split; [|reflexivity].
  intros deny1 deny2 reached1 reached2 argv1 argv2 environ1 environ2
         fs1 fs2 C s1 s2 Hd1 Hd2 Hrun1 Hrun2.
  apply run_ok_inv in Hrun1. destruct Hrun1 as (C1 & Hready1 & ->).
  apply run_ok_inv in Hrun2. destruct Hrun2 as (C2 & Hready2 & ->).
  destruct Hready1 as (_ & _ & _ & _ & Hdocs1 & _).
  destruct Hready2 as (_ & _ & _ & _ & Hdocs2 & _).
  rewrite Hd1 in Hdocs1. rewrite Hd2 in Hdocs2.
  inversion Hdocs1; inversion Hdocs2; subst.
  cbn [cwd stdout]. now rewrite !hard_docs_installed.
Qed.

Lemma C8_deterministic_output_witness :
  hard_docs (cwd (snd (run no_faults nothing_reached [] [] fs_plain))) =
    hard_docs
      (cwd (snd (run no_faults (fun _ => 7) ["-v"] [("HOME", "/root")]
                   (("notes", File "n") :: fs_stale_x)))) /\
  stdout (snd (run no_faults nothing_reached [] [] fs_plain)) =
    stdout (snd (run no_faults (fun _ => 7) ["-v"] [("HOME", "/root")]
                   (("notes", File "n") :: fs_stale_x))).
Proof.
  apply (proj1 C8_deterministic_output
           no_faults no_faults nothing_reached (fun _ => 7)
           [] ["-v"] [] [("HOME", "/root")]
           fs_plain (("notes", File "n") :: fs_stale_x) "x").
  - reflexivity.
  - reflexivity.
  - vm_compute. reflexivity.
  - vm_compute. reflexivity.
Defined.

(** C8 as stated fails: the content of docs.txt is not the only input.
    Both working directories hold the same docs.txt; the second also holds
    an output directory with a subdirectory in it.  In the same environment
    and with the same command line the first run succeeds and the second
    fails in its reset: the outputs differ and so do the directories. *)
Lemma C8_same_document_different_results :
  docs_txt fs_plain = docs_txt fs_subdir /\
  stdout (snd (run no_faults nothing_reached [] [] fs_plain)) <>
    stdout (snd (run no_faults nothing_reached [] [] fs_subdir)) /\
  hard_docs (cwd (snd (run no_faults nothing_reached [] [] fs_plain))) <>
    hard_docs (cwd (snd (run no_faults nothing_reached [] [] fs_subdir))).
Proof.
  split; [reflexivity|]. split; vm_compute; discriminate.
Qed.

(** C9.  An exception raised when docs.txt is opened or read is raised
    after the reset and the creation of the output directory completed: all
    that the run did before is the reset and the mkdir, and the output
    directory exists and is empty. *)
Theorem C9_read_failure_leaves_empty_directory (deny : op -> bool)
    (reached : path -> nat) (argv : list string)
    (environ : list (string * string)) (fs : dirents)
    (k : errkind) (o : op) (s' : state) :
  run deny reached argv environ fs = (Raise (Exn k o), s') ->
  o = OpenR docs_path \/ o = Read docs_path ->
  hard_docs (cwd s') = Some (Dir []) /\
  (trace s' = reset_ops fs ++ [Mkdir dir] \/
   trace s' = reset_ops fs ++ [Mkdir dir; OpenR docs_path]).
Proof.
  intros Hrun Ho. apply run_cases in Hrun.
  inversion Hrun as [e s1 Hreset| | | | | | | ]; subst;
    try (destruct Ho; discriminate).
  - inversion Hreset; subst; destruct Ho; discriminate.
  - cbn [cwd trace boot]. split; [apply hard_docs_installed|now left].
  - cbn [cwd trace boot]. split; [apply hard_docs_installed|now right].
Qed.

Lemma C9_read_failure_leaves_empty_directory_witness :
  hard_docs (cwd (snd (run no_faults nothing_reached [] [] fs_no_docs))) =
    Some (Dir []) /\
  (trace (snd (run no_faults nothing_reached [] [] fs_no_docs)) =
     reset_ops fs_no_docs ++ [Mkdir dir] \/
   trace (snd (run no_faults nothing_reached [] [] fs_no_docs)) =
     reset_ops fs_no_docs ++ [Mkdir dir; OpenR docs_path]).
Proof.
  apply (C9_read_failure_leaves_empty_directory no_faults nothing_reached
           [] [] fs_no_docs FileNotFoundError (OpenR docs_path)).
  - vm_compute. reflexivity.
  - left. reflexivity.
Defined.

Lemma for_each_app {A : Type} (l1 l2 : list A) (body : A -> M unit)
    (s : state) :
  for_each (l1 ++ l2) body s = (for_each l1 body ;; for_each l2 body) s.
Proof.
  revert s. induction l1 as [|x l1 IH]; intros s; simpl.
  - reflexivity.
  - unfold bind in *. destruct (body x s) as [[u|e] s1]; auto.
Qed.

(** The generation loop run for its first [k] indices in an empty output
    directory. *)
Lemma generate_prefix (deny : op -> bool) (reached : path -> nat)
    (text : string) (k : nat) (s : state) (r : result unit) (s1 : state) :
  hard_docs (cwd s) = Some (Dir []) ->
  for_each (range k) (write_doc deny reached text) s = (r, s1) ->
  match r with
  | Ok _ =>
      hard_docs (cwd s1) = Some (Dir (out_files text k)) /\
      trace s1 = trace s ++ gen_ops text 0 k
  | Raise e =>
      exists j, j < k /\
        ((e = Exn OSError (OpenW (out_path j)) /\
          hard_docs (cwd s1) = Some (Dir (out_files text j)) /\
          trace s1 = trace s ++ gen_ops text 0 j)
         \/
         (e = Exn OSError (Write (out_path j) (fcontent text j)) /\
          hard_docs (cwd s1) =
            Some (Dir (out_files text j ++ [torn_file reached text j])) /\
          trace s1 = trace s ++ gen_ops text 0 j ++ [OpenW (out_path j)]))
  end.
Proof.
  intros Hd Hrun. unfold range in Hrun.
  apply generate_loop with (ents := []) in Hrun; [|exact Hd|reflexivity].
  destruct Hrun as
    [(-> & ->)|[(j & Hj & Hden & -> & ->)|(j & Hj & Hden & -> & ->)]];
    cbn [cwd trace app].
  - split; [apply hard_docs_put_dir|reflexivity].
  - exists j. split; [exact Hj|]. left.
    split; [reflexivity|]. split; [apply hard_docs_put_dir|reflexivity].
  - exists j. split; [exact Hj|]. right.
    split; [reflexivity|]. split; [apply hard_docs_put_dir|reflexivity].
Qed.

(** C10, as the script has it.  The generation loop opens and writes the
    files one at a time in the order 0, 1, ..., 50.  After its first k
    iterations, for every k up to 51, the output directory holds exactly
    0.txt ... (k-1).txt, each with its final content.  A failure at index j
    leaves the files of the indices below j, complete: alone when the open
    of j.txt is refused, and together with j.txt itself, holding the part
    of its content that reached the disk (possibly nothing), when the
    write is refused after the open created the file. *)
Theorem C10_files_in_index_order (deny : op -> bool) (reached : path -> nat) :
  (forall (text : string) (k : nat) (s : state) (r : result unit) (s1 : state),
     k <= 51 ->
     hard_docs (cwd s) = Some (Dir []) ->
     generate deny reached text s =
       (for_each (range k) (write_doc deny reached text) ;;
        for_each (seq k (51 - k)) (write_doc deny reached text)) s /\
     (for_each (range k) (write_doc deny reached text) s = (r, s1) ->
      match r with
      | Ok _ =>
          hard_docs (cwd s1) = Some (Dir (out_files text k)) /\
          trace s1 = trace s ++ gen_ops text 0 k
      | Raise e =>
          exists j, j < k /\
            ((e = Exn OSError (OpenW (out_path j)) /\
              hard_docs (cwd s1) = Some (Dir (out_files text j)) /\
              trace s1 = trace s ++ gen_ops text 0 j)
             \/
             (e = Exn OSError (Write (out_path j) (fcontent text j)) /\
              hard_docs (cwd s1) =
                Some (Dir (out_files text j ++ [torn_file reached text j])) /\
              trace s1 =
                trace s ++ gen_ops text 0 j ++ [OpenW (out_path j)]))
      end))
  /\
  (forall (argv : list string) (environ : list (string * string))
          (fs : dirents) (kind : errkind) (o : op) (s' : state) (j : nat),
     run deny reached argv environ fs = (Raise (Exn kind o), s') ->
     (o = OpenW (out_path j) ->
      j < 51 /\
      exists C,
        docs_txt fs = Some (File C) /\
        hard_docs (cwd s') = Some (Dir (out_files (universal_newlines C) j)))
     /\
     (forall c,
        o = Write (out_path j) c ->
        j < 51 /\
        exists C,
          docs_txt fs = Some (File C) /\
          c = fcontent (universal_newlines C) j /\
          hard_docs (cwd s') =
            Some (Dir (out_files (universal_newlines C) j ++
                       [torn_file reached (universal_newlines C) j])))).
Proof.
  split.
  - intros text k s r s1 Hk Hd. split.
    + unfold generate, range.
      replace 51 with (k + (51 - k)) at 1 by lia.
      rewrite seq_app. apply for_each_app.
    + now apply generate_prefix.
  - intros argv environ fs kind o s' j Hrun.
    apply run_cases in Hrun.
    split; [intros Ho|intros c Ho]; subst o;
      inversion Hrun as
        [e s1 Hreset| | | |C j0 Hready Hj Hden|C j0 Hready Hj Hden| | ];
      subst; try (inversion Hreset; discriminate);
      match goal with
      | H : fname _ = fname _ |- _ => apply fname_inj in H; subst
      end;
      (split; [exact Hj|]); exists C;
      destruct Hready as (_ & _ & _ & _ & Hdocs & _);
      cbn [cwd boot] in *; repeat split; auto; apply hard_docs_installed.
Qed.

Lemma C10_files_in_index_order_witness :
  (3 < 51 /\
   exists C,
     docs_txt fs_plain = Some (File C) /\
     hard_docs (cwd (snd (run no_create_at_3 nothing_reached [] [] fs_plain))) =
       Some (Dir (out_files (universal_newlines C) 3))) /\
  (3 < 51 /\
   exists C,
     docs_txt fs_plain = Some (File C) /\
     fcontent "x" 3 = fcontent (universal_newlines C) 3 /\
     hard_docs (cwd (snd (run disk_full_at_3 (fun _ => 1) [] [] fs_plain))) =
       Some (Dir (out_files (universal_newlines C) 3 ++
                  [torn_file (fun _ => 1) (universal_newlines C) 3]))).
Proof.
  split.
  - apply (proj1 (proj2 (C10_files_in_index_order no_create_at_3
                           nothing_reached)
                    [] [] fs_plain OSError (OpenW (out_path 3)) _ 3
                    (surjective_pairing _))).
    reflexivity.
  - apply (proj2 (proj2 (C10_files_in_index_order disk_full_at_3
                           (fun _ => 1))
                    [] [] fs_plain OSError
                    (Write (out_path 3) (fcontent "x" 3)) _ 3
                    (surjective_pairing _))).
    reflexivity.
Defined.

(** C10 as stated fails for a write that is refused after the file was
    opened.  The disk fills up while 3.txt is written: the run stops there
    and the output directory holds 0.txt, 1.txt, 2.txt and also 3.txt,
    empty, which is neither absent nor complete. *)
Lemma C10_refused_write_leaves_the_file :
  exists s',
    run disk_full_at_3 nothing_reached [] [] fs_plain =
      (Raise (Exn OSError (Write (out_path 3) (fcontent "x" 3))), s') /\
    hard_docs (cwd s') =
      Some (Dir (out_files "x" 3 ++ [("3.txt", File "")])) /\
    hard_docs (cwd s') <> Some (Dir (out_files "x" 3)) /\
    resolve (out_path 3) (cwd s') = inr (File "") /\
    File ""%string <> File (fcontent "x" 3).
Proof.
  eexists. split; [vm_compute; reflexivity|].
  split; [reflexivity|]. split; [vm_compute; discriminate|].
  split; [reflexivity|]. vm_compute. discriminate.
Qed.

(** * Further properties of the script *)

(** ** What a run leaves alone *)

Lemma lookup_put_dir_other (name : string) (ents : dirents) (fs : dirents) :
  name <> "hard_docs"%string -> lookup name (put_dir ents fs) = lookup name fs.
Proof. intros H. now apply lookup_set_entry_neq. Qed.

Lemma lookup_installed_other (name : string) (ents : dirents) (fs : dirents) :
  name <> "hard_docs"%string -> lookup name (installed ents fs) = lookup name fs.
Proof.
  intros H. unfold installed.
  rewrite lookup_put_dir_other by exact H.
  now apply lookup_remove_entry_neq.
Qed.

(** X1.  In a working directory where hard_docs is absent or is a
    directory itself (not a symbolic link, through which the reset would
    delete the entries of another directory), a run, whatever it does and
    whether it succeeds or fails, changes no entry of the working directory
    other than hard_docs: docs.txt and every other name hold after the run
    what they held before.  When hard_docs is a regular file the run
    changes nothing at all, as [run_file_in_the_way] says. *)
Theorem run_touches_only_hard_docs (deny : op -> bool) (reached : path -> nat)
    (argv : list string) (environ : list (string * string))
    (fs : dirents) (r : result unit) (s' : state) (name : string) :
  absent_or_directory fs ->
  run deny reached argv environ fs = (r, s') ->
  name <> "hard_docs"%string ->
  lookup name (cwd s') = lookup name fs.
Proof.
  intros _ Hrun Hname. apply run_cases in Hrun.
  inversion Hrun as [e s1 Hreset| | | | | | | ]; subst; cbn [cwd boot];
    try (now apply lookup_installed_other);
    try (now apply lookup_remove_entry_neq).
  inversion Hreset; subst; cbn [cwd boot]; auto;
    now apply lookup_put_dir_other.
Qed.

Lemma run_touches_only_hard_docs_witness :
  lookup "docs.txt" (cwd (snd (run disk_full_at_3 nothing_reached [] [] fs_hello))) =
  lookup "docs.txt" fs_hello.
Proof.
  apply (run_touches_only_hard_docs disk_full_at_3 nothing_reached [] []
           fs_hello
           (fst (run disk_full_at_3 nothing_reached [] [] fs_hello))).
  - right. eexists. reflexivity.
  - apply surjective_pairing.
  - discriminate.
Defined.

(** ** The errors of the reset *)

(** X2.  When hard_docs exists and is a regular file, [os.path.exists]
    answers yes and [os.listdir] raises: NotADirectoryError, or the error of
    the environment when it refuses the listing.  The run ends there, with
    nothing changed, nothing done and nothing printed. *)
Theorem run_file_in_the_way (deny : op -> bool) (reached : path -> nat)
    (argv : list string) (environ : list (string * string))
    (fs : dirents) (c : string) :
  hard_docs fs = Some (File c) ->
  run deny reached argv environ fs =
    (Raise (Exn (if deny (Listdir dir) then OSError else NotADirectoryError)
              (Listdir dir)),
     boot fs).
Proof.
  intros H. unfold run, script, bind, reset, bind, os_path_exists.
  cbn [resolve dir boot cwd]. fold (hard_docs fs). rewrite H.
  unfold os_listdir, query. destruct (deny (Listdir dir)).
  - reflexivity.
  - cbn [resolve boot cwd dir]. fold (hard_docs fs). now rewrite H.
Qed.

Lemma run_file_in_the_way_witness :
  run no_faults nothing_reached [] [] fs_file_in_the_way =
    (Raise (Exn (if no_faults (Listdir dir) then OSError
                 else NotADirectoryError)
              (Listdir dir)),
     boot fs_file_in_the_way).
Proof.
  apply (run_file_in_the_way no_faults nothing_reached [] []
           fs_file_in_the_way "oops").
  reflexivity.
Defined.

(** The removals over a listing whose first blocked entry is [e]. *)
Lemma cleanup_stops (deny : op -> bool) (e : string * node) (rest : dirents)
    (gone : dirents) :
  forall s : state,
  hard_docs (cwd s) = Some (Dir (gone ++ e :: rest)) ->
  Forall (removable deny) gone ->
  blocked deny e ->
  for_each (map fst (gone ++ e :: rest))
    (fun filename => os_remove deny (os_path_join dir filename)) s =
  (Raise (Exn (if deny (rm_op e) then OSError else IsADirectoryError)
            (rm_op e)),
   mkState (put_dir (e :: rest) (cwd s)) (stdout s)
     (trace s ++ map rm_op gone)).
Proof.
  induction gone as [|[n x] gone IH]; intros s Hd Hall Hb.
  - destruct e as [name x]. cbn [app] in Hd.
    cbn [app map fst for_each]. unfold bind.
    change (os_path_join dir name) with ["hard_docs"; name].
    rewrite (os_remove_entry deny name x rest s Hd).
    unfold rm_op. cbn [fst].
    rewrite app_nil_r, (put_dir_same _ _ Hd), state_eta.
    destruct (deny (Remove ["hard_docs"; name])) eqn:Hden; [reflexivity|].
    destruct Hb as [Hb|Hb].
    + destruct x; [discriminate|reflexivity].
    + unfold rm_op in Hb. cbn [fst] in Hb. congruence.
  - inversion Hall as [|? ? [Hfile Hden] Hall']; subst.
    cbn [app] in Hd.
    cbn [app map fst for_each]. unfold bind.
    change (os_path_join dir n) with ["hard_docs"; n].
    rewrite (os_remove_entry deny n x (gone ++ e :: rest) s Hd).
    unfold rm_op in Hden. cbn [fst snd] in Hden, Hfile. rewrite Hden.
    destruct x as [c|sub]; [|discriminate].
    rewrite IH; cbn [cwd stdout trace]; auto.
    + rewrite put_dir_twice, <- app_assoc. reflexivity.
    + apply hard_docs_put_dir.
Qed.

(** X3.  The reset is not atomic.  When the listing of hard_docs reaches an
    entry it cannot remove, a subdirectory or a file whose removal is
    refused, the run ends with the exception of that removal:
    IsADirectoryError for a subdirectory, the error of the environment for
    a refusal.  The entries listed before it are deleted; that entry and
    all the entries listed after it are still there, in the same order. *)
Theorem run_reset_stops_at_first_blocked (deny : op -> bool)
    (reached : path -> nat) (argv : list string)
    (environ : list (string * string)) (fs : dirents)
    (gone : dirents) (e : string * node) (rest : dirents) :
  hard_docs fs = Some (Dir (gone ++ e :: rest)) ->
  deny (Listdir dir) = false ->
  Forall (removable deny) gone ->
  blocked deny e ->
  run deny reached argv environ fs =
    (Raise (Exn (if deny (Remove (os_path_join dir (fst e))) then OSError
                 else IsADirectoryError)
              (Remove (os_path_join dir (fst e)))),
     mkState (put_dir (e :: rest) fs) ""
       (Listdir dir :: map (fun g => Remove (os_path_join dir (fst g))) gone)).
Proof.
  intros Hd Hl Hall Hb.
  unfold run, script, bind, reset, bind, os_path_exists.
  cbn [resolve dir boot cwd]. fold (hard_docs fs). rewrite Hd.
  unfold os_listdir, query. rewrite Hl.
  cbn [resolve boot cwd dir]. fold (hard_docs fs). rewrite Hd.
  rewrite (cleanup_stops deny e rest gone); auto.
Qed.

Lemma run_reset_stops_at_first_blocked_witness :
  run no_faults nothing_reached [] [] fs_subdir =
    (Raise (Exn (if no_faults (Remove (os_path_join dir "sub")) then OSError
                 else IsADirectoryError)
              (Remove (os_path_join dir "sub"))),
     mkState
       (put_dir [("sub", Dir []); ("b.txt", File "b")] fs_subdir) ""
       (Listdir dir ::
        map (fun g => Remove (os_path_join dir (fst g)))
          [("a.txt", File "a")])).
Proof.
  apply (run_reset_stops_at_first_blocked no_faults nothing_reached [] []
           fs_subdir [("a.txt", File "a")] ("sub", Dir [])
           [("b.txt", File "b")]).
  - reflexivity.
  - reflexivity.
  - repeat constructor.
  - left. reflexivity.
Defined.

(** ** The errors after the reset *)

(** The reset and the creation of the directory, when both go through. *)
Lemma setup_ok (deny : op -> bool) (fs : dirents) :
  reset_completes deny fs ->
  deny (Mkdir dir) = false ->
  hard_docs (remove_entry "hard_docs" fs) = None ->
  (reset deny ;; os_mkdir deny dir) (boot fs) =
    (Ok tt, mkState (installed [] fs) "" (reset_ops fs ++ [Mkdir dir])).
Proof.
  intros Hrc Hmk Hgone. unfold bind.
  rewrite (reset_completes_ok deny (boot fs) Hrc).
  unfold os_mkdir, update. rewrite Hmk.
  cbn [modify dir cwd boot]. fold (hard_docs (remove_entry "hard_docs" fs)).
  rewrite Hgone. reflexivity.
Qed.

(** X4.  The errors of the source read.  Once the reset and the mkdir went
    through, a missing docs.txt makes [open] raise FileNotFoundError and a
    docs.txt that is a directory makes it raise IsADirectoryError (unless
    the environment refuses the open first).  In both cases the old content
    of hard_docs is already deleted: the run leaves a new, empty hard_docs
    behind and has printed nothing. *)
Theorem run_source_not_a_file (deny : op -> bool) (reached : path -> nat)
    (argv : list string) (environ : list (string * string)) (fs : dirents) :
  reset_completes deny fs ->
  deny (Mkdir dir) = false ->
  hard_docs (remove_entry "hard_docs" fs) = None ->
  deny (OpenR docs_path) = false ->
  (forall C, docs_txt fs <> Some (File C)) ->
  run deny reached argv environ fs =
    (Raise (Exn (match docs_txt fs with
                 | None => FileNotFoundError
                 | Some _ => IsADirectoryError
                 end)
              (OpenR docs_path)),
     mkState (installed [] fs) "" (reset_ops fs ++ [Mkdir dir])).
Proof.
  intros Hrc Hmk Hgone Hopen Hdocs.
  pose proof (setup_ok deny fs Hrc Hmk Hgone) as Hsetup.
  unfold run, script. unfold bind in *.
  destruct (reset deny (boot fs)) as [[[]|e] s1]; [|discriminate].
  rewrite Hsetup.
  unfold read_docs, bind, open_r, query. rewrite Hopen.
  cbn [resolve docs_path cwd].
  fold (docs_txt (installed [] fs)). rewrite docs_txt_installed.
  destruct (docs_txt fs) as [[C|sub]|]; try reflexivity.
  exfalso. now apply (Hdocs C).
Qed.

Lemma run_source_not_a_file_witness :
  run no_faults nothing_reached [] [] fs_docs_is_dir =
    (Raise (Exn (match docs_txt fs_docs_is_dir with
                 | None => FileNotFoundError
                 | Some _ => IsADirectoryError
                 end)
              (OpenR docs_path)),
     mkState (installed [] fs_docs_is_dir) ""
       (reset_ops fs_docs_is_dir ++ [Mkdir dir])).
Proof.
  apply (run_source_not_a_file no_faults nothing_reached [] [] fs_docs_is_dir).
  - unfold reset_completes. cbn. repeat split. repeat constructor.
  - reflexivity.
  - reflexivity.
  - reflexivity.
  - intros C. discriminate.
Defined.

(** X5.  After the reset the name hard_docs is free.  In a working
    directory with distinct names, where hard_docs is absent or is a
    directory itself (a dangling symbolic link would be skipped by the
    reset and found by the mkdir), [os.mkdir] never finds the name taken:
    an exception of the mkdir means that the environment refused it, and
    then hard_docs is absent although it may have existed before the
    run. *)
Theorem run_mkdir_fails_only_when_refused (deny : op -> bool)
    (reached : path -> nat) (argv : list string)
    (environ : list (string * string)) (fs : dirents)
    (k : errkind) (p : path) (s' : state) :
  NoDup (map fst fs) ->
  absent_or_directory fs ->
  run deny reached argv environ fs = (Raise (Exn k (Mkdir p)), s') ->
  p = dir /\ deny (Mkdir dir) = true /\ hard_docs (cwd s') = None.
Proof.
  intros Hnodup _ Hrun. apply run_cases in Hrun.
  inversion Hrun as [e s1 Hreset|k' Hrc [Hden|Hne]| | | | | | ]; subst.
  - inversion Hreset.
  - cbn [cwd boot]. repeat split; auto. now apply lookup_removed.
  - exfalso. apply Hne. cbn [cwd boot]. now apply lookup_removed.
Qed.

Lemma run_mkdir_fails_only_when_refused_witness :
  dir = dir /\ no_mkdir (Mkdir dir) = true /\
  hard_docs (cwd (snd (run no_mkdir nothing_reached [] [] fs_hello))) = None.
Proof.
  apply (run_mkdir_fails_only_when_refused no_mkdir nothing_reached [] []
           fs_hello OSError dir).
  - repeat constructor; simpl; intuition discriminate.
  - right. eexists. reflexivity.
  - vm_compute. reflexivity.
Defined.

(** X6.  The generation loop never fails for a reason of its own.  It runs
    in a directory the script has just made, the names it writes are new,
    and so an exception raised by [open(o, 'w')] or by [f.write] in a run
    is always a refusal of the environment, for the file of an index below
    51: never FileNotFoundError, never IsADirectoryError, never a clash
    with an existing entry. *)
Theorem run_generation_fails_only_when_refused (deny : op -> bool)
    (reached : path -> nat) (argv : list string)
    (environ : list (string * string)) (fs : dirents)
    (k : errkind) (o : op) (s' : state) :
  run deny reached argv environ fs = (Raise (Exn k o), s') ->
  (exists p, o = OpenW p) \/ (exists p c, o = Write p c) ->
  k = OSError /\ deny o = true /\
  exists j, j < 51 /\
    (o = OpenW (out_path j) \/ exists text, o = Write (out_path j) (fcontent text j)).
Proof.
  intros Hrun Ho. apply run_cases in Hrun.
  inversion Hrun as
    [e s1 Hreset| | | |C j Hready Hj Hden|C j Hready Hj Hden| | ];
    subst;
    try (destruct Ho as [(p & Hp)|(p & c & Hp)]; discriminate).
  - inversion Hreset; subst;
      destruct Ho as [(p & Hp)|(p & c & Hp)]; discriminate.
  - repeat split; auto. exists j. split; auto.
  - repeat split; auto. exists j. split; auto. right. eexists. reflexivity.
Qed.

Lemma run_generation_fails_only_when_refused_witness :
  OSError = OSError /\
  disk_full_at_3 (Write (out_path 3) (fcontent "x" 3)) = true /\
  exists j, j < 51 /\
    (Write (out_path 3) (fcontent "x" 3) = OpenW (out_path j) \/
     exists text,
       Write (out_path 3) (fcontent "x" 3) =
       Write (out_path j) (fcontent text j)).
Proof.
  apply (run_generation_fails_only_when_refused disk_full_at_3
           nothing_reached [] [] fs_plain OSError
           (Write (out_path 3) (fcontent "x" 3))
           (snd (run disk_full_at_3 nothing_reached [] [] fs_plain))).
  - vm_compute. reflexivity.
  - right. eexists. eexists. reflexivity.
Defined.

(** X7.  The print is the last thing the script does.  When it fails (the
    standard output is closed) the run ends in an exception, yet all 51
    output files are on the disk, complete. *)
Theorem run_print_fails_after_all_files (deny : op -> bool)
    (reached : path -> nat) (argv : list string)
    (environ : list (string * string)) (fs : dirents)
    (k : errkind) (line : string) (s' : state) :
  run deny reached argv environ fs = (Raise (Exn k (Print line)), s') ->
  line = success_message /\
  stdout s' = ""%string /\
  exists C,
    docs_txt fs = Some (File C) /\
    hard_docs (cwd s') = Some (Dir (out_files (universal_newlines C) 51)).
Proof.
  intros Hrun. apply run_cases in Hrun.
  inversion Hrun as [e s1 Hreset| | | | | |C Hready Hden| ]; subst.
  - inversion Hreset.
  - repeat split; auto. exists C.
    destruct Hready as (_ & _ & _ & _ & Hdocs & _).
    split; [exact Hdocs|]. apply hard_docs_installed.
Qed.

Lemma run_print_fails_after_all_files_witness :
  success_message = success_message /\
  stdout (snd (run no_print nothing_reached [] [] fs_hello)) = ""%string /\
  exists C,
    docs_txt fs_hello = Some (File C) /\
    hard_docs (cwd (snd (run no_print nothing_reached [] [] fs_hello))) =
      Some (Dir (out_files (universal_newlines C) 51)).
Proof.
  apply (run_print_fails_after_all_files no_print nothing_reached [] []
           fs_hello OSError success_message).
  vm_compute. reflexivity.
Defined.

(** ** When a run succeeds, and running again *)

Lemma runnable_ready (fs : dirents) (C : string) :
  runnable fs C -> ready no_faults fs C.
Proof.
  intros (Hgone & Hd & Hdocs & Hvalid). unfold ready.
  split; [|repeat split; auto].
  unfold reset_completes.
  destruct Hd as [Hd|(ents & Hd & Hflat)]; rewrite Hd; auto.
  repeat split; auto.
  unfold flat in Hflat. rewrite Forall_forall in *.
  intros e He. split; auto.
Qed.

Lemma ready_runnable (deny : op -> bool) (fs : dirents) (C : string) :
  ready deny fs C -> runnable fs C.
Proof.
  intros (Hrc & _ & Hgone & _ & Hdocs & _ & Hvalid). unfold runnable.
  split; [exact Hgone|]. split; [|split; [exact Hdocs|exact Hvalid]].
  unfold reset_completes in Hrc.
  destruct (hard_docs fs) as [[c|ents]|]; [contradiction| |now left].
  right. exists ents. split; auto.
  destruct Hrc as (_ & Hall & _). unfold flat.
  rewrite Forall_forall in *. intros e He. now apply Hall.
Qed.

Lemma runnable_completes (reached : path -> nat) (argv : list string)
    (environ : list (string * string)) (fs : dirents) (C : string) :
  runnable fs C ->
  run no_faults reached argv environ fs =
    (Ok tt,
     mkState (installed (out_files (universal_newlines C) 51) fs)
       (success_message ++ nl)%string
       (setup_ops fs ++ gen_ops (universal_newlines C) 0 51 ++
        [Print success_message])).
Proof.
  intros H. apply run_completes; auto using runnable_ready.
Qed.

(** X8.  When the environment refuses nothing, a run succeeds exactly on
    the working directories in which no entry is named hard_docs or the
    entry is a directory itself that holds no subdirectory, and docs.txt is
    a regular file whose content is valid UTF-8 (and no second entry is
    named hard_docs, as in every real directory).  A regular file that does
    not decode, a hard_docs that is a regular file, and a subdirectory
    inside hard_docs each make the run fail. *)
Theorem run_succeeds_iff_runnable (reached : path -> nat)
    (argv : list string) (environ : list (string * string)) (fs : dirents) :
  (exists s', run no_faults reached argv environ fs = (Ok tt, s')) <->
  (exists C, runnable fs C).
Proof.
  split.
  - intros (s' & Hrun). apply run_ok_inv in Hrun.
    destruct Hrun as (C & Hready & _). exists C.
    eapply ready_runnable; eauto.
  - intros (C & Hr). eexists.
    exact (runnable_completes reached argv environ fs C Hr).
Qed.

Lemma runnable_put_dir (fs : dirents) (C : string) (ents : dirents) :
  hard_docs (remove_entry "hard_docs" fs) = None ->
  docs_txt fs = Some (File C) ->
  utf8_valid C = true ->
  flat ents ->
  runnable (put_dir ents fs) C.
Proof.
  intros Hgone Hdocs Hvalid Hflat. unfold runnable.
  split; [|split; [|split]].
  - unfold put_dir. now rewrite remove_set_entry.
  - right. exists ents. split; auto. apply hard_docs_put_dir.
  - now rewrite docs_txt_put_dir.
  - exact Hvalid.
Qed.

Lemma runnable_installed (fs : dirents) (C : string) (ents : dirents) :
  hard_docs (remove_entry "hard_docs" fs) = None ->
  docs_txt fs = Some (File C) ->
  utf8_valid C = true ->
  flat ents ->
  runnable (installed ents fs) C.
Proof.
  intros Hgone Hdocs Hvalid Hflat. unfold installed.
  apply runnable_put_dir; auto.
  - now rewrite remove_entry_absent.
  - now rewrite docs_txt_remove.
Qed.

Lemma runnable_after (deny : op -> bool) (reached : path -> nat)
    (fs : dirents) (C : string) (r : result unit) (s' : state) :
  runnable fs C ->
  outcome deny reached (boot fs) r s' ->
  runnable (cwd s') C.
Proof.
  intros Hr Hout. pose proof Hr as (Hgone & Hd & Hdocs & Hvalid).
  assert (Hfiles : forall text j, flat (out_files text j))
    by (intros; apply out_files_are_files).
  inversion Hout as [e s1 Hreset| | | | | | | ]; subst; cbn [cwd boot];
    try (apply runnable_installed; auto; try constructor).
  - inversion Hreset as [|k Hne Hc|k gone b rest Hb Hall Hbl|ents Hb Hall Hden];
      subst; cbn [cwd boot] in *; auto.
    + apply runnable_put_dir; auto.
      destruct Hd as [Hd|(ents & Hd & Hflat)]; [congruence|].
      rewrite Hb in Hd. inversion Hd; subst.
      unfold flat in *. apply Forall_app in Hflat. tauto.
    + apply runnable_put_dir; auto. constructor.
  - unfold runnable. split; [|split; [|split]].
    + now rewrite remove_entry_absent.
    + now left.
    + now rewrite docs_txt_remove.
    + exact Hvalid.
  - unfold flat. apply Forall_app. split; [apply Hfiles|].
    repeat constructor.
Qed.

(** X9.  The script can always be run again.  A working directory on
    which it can do its work (hard_docs absent or a directory itself
    without subdirectory, docs.txt a regular file of valid UTF-8) stays one
    after every run, whatever the environment refused and wherever the run
    stopped: docs.txt is still the same file, and hard_docs is absent or a
    directory of files.  So the next run in an environment that refuses
    nothing succeeds and leaves the complete set of 51 files. *)
Theorem run_can_be_repeated (deny : op -> bool) (reached reached' : path -> nat)
    (argv argv' : list string) (environ environ' : list (string * string))
    (fs : dirents) (C : string) (r : result unit) (s' : state) :
  runnable fs C ->
  run deny reached argv environ fs = (r, s') ->
  runnable (cwd s') C /\
  exists s'',
    run no_faults reached' argv' environ' (cwd s') = (Ok tt, s'') /\
    hard_docs (cwd s'') = Some (Dir (out_files (universal_newlines C) 51)) /\
    stdout s'' = (success_message ++ nl)%string.
Proof.
  intros Hr Hrun. apply run_cases in Hrun.
  pose proof (runnable_after deny reached fs C r s' Hr Hrun) as Hr'.
  split; [exact Hr'|].
  eexists.
  split; [exact (runnable_completes reached' argv' environ' (cwd s') C Hr')|].
  cbn [cwd stdout]. split; [apply hard_docs_installed|reflexivity].
Qed.

Lemma run_can_be_repeated_witness :
  runnable (cwd (snd (run disk_full_at_3 nothing_reached [] [] fs_hello)))
    hello_world /\
  exists s'',
    run no_faults nothing_reached [] []
      (cwd (snd (run disk_full_at_3 nothing_reached [] [] fs_hello))) =
      (Ok tt, s'') /\
    hard_docs (cwd s'') =
      Some (Dir (out_files (universal_newlines hello_world) 51)) /\
    stdout s'' = (success_message ++ nl)%string.
Proof.
  apply (run_can_be_repeated disk_full_at_3 nothing_reached nothing_reached
           [] [] [] [] fs_hello hello_world
           (fst (run disk_full_at_3 nothing_reached [] [] fs_hello))).
  - unfold runnable. split; [reflexivity|].
    split; [|split; reflexivity].
    right. eexists. split; [reflexivity|]. repeat constructor.
  - apply surjective_pairing.
Defined.

(** X13.  A docs.txt that is a regular file but not valid UTF-8 is read by
    nobody: once the reset and the mkdir went through and the file was
    opened, [f.read()] raises UnicodeDecodeError although the environment
    refuses nothing.  The old content of hard_docs is already deleted, a
    new empty hard_docs is left, and nothing is printed. *)
Theorem run_source_undecodable (deny : op -> bool) (reached : path -> nat)
    (argv : list string) (environ : list (string * string))
    (fs : dirents) (C : string) :
  reset_completes deny fs ->
  deny (Mkdir dir) = false ->
  hard_docs (remove_entry "hard_docs" fs) = None ->
  deny (OpenR docs_path) = false ->
  deny (Read docs_path) = false ->
  docs_txt fs = Some (File C) ->
  utf8_valid C = false ->
  run deny reached argv environ fs =
    (Raise (Exn UnicodeDecodeError (Read docs_path)),
     mkState (installed [] fs) ""
       (reset_ops fs ++ [Mkdir dir; OpenR docs_path])).
Proof.
  intros Hrc Hmk Hgone Hopen Hread Hdocs Hvalid.
  pose proof (setup_ok deny fs Hrc Hmk Hgone) as Hsetup.
  unfold run, script. unfold bind in *.
  destruct (reset deny (boot fs)) as [[[]|e] s1]; [|discriminate].
  rewrite Hsetup.
  unfold read_docs, bind, open_r, query. rewrite Hopen.
  cbn [resolve docs_path cwd].
  fold (docs_txt (installed [] fs)). rewrite docs_txt_installed, Hdocs.
  unfold f_read, query. fold docs_path. rewrite Hread.
  cbn [resolve docs_path cwd done].
  fold (docs_txt (installed [] fs)). rewrite docs_txt_installed, Hdocs.
  rewrite Hvalid. unfold done. cbn [cwd stdout trace].
  now rewrite <- app_assoc.
Qed.

Lemma run_source_undecodable_witness :
  run no_faults nothing_reached [] [] fs_undecodable =
    (Raise (Exn UnicodeDecodeError (Read docs_path)),
     mkState (installed [] fs_undecodable) ""
       (reset_ops fs_undecodable ++ [Mkdir dir; OpenR docs_path])).
Proof.
  apply (run_source_undecodable no_faults nothing_reached [] []
           fs_undecodable (String (ascii_of_nat 255) EmptyString)).
  - unfold reset_completes. cbn. repeat split. repeat constructor.
  - reflexivity.
  - reflexivity.
  - reflexivity.
  - reflexivity.
  - reflexivity.
  - reflexivity.
Defined.

(** ** The names and the contents of the output files *)

Lemma has_slash_append (s t : string) :
  has_slash (s ++ t) = has_slash s || has_slash t.
Proof.
  induction s as [|c s IH]; simpl; auto.
  rewrite IH. now rewrite orb_assoc.
Qed.

Lemma has_cr_append (s t : string) :
  has_cr (s ++ t) = has_cr s || has_cr t.
Proof.
  induction s as [|c s IH]; simpl; auto.
  rewrite IH. now rewrite orb_assoc.
Qed.

Lemma str_digits_only (i : nat) : has_slash (str i) = false /\ has_cr (str i) = false.
Proof.
  unfold str. induction (Nat.to_uint i) as [|d IH|d IH|d IH|d IH|d IH|d IH|d IH|d IH|d IH|d IH];
    simpl; auto.
Qed.

Lemma str_not_empty (i : nat) : str i <> ""%string.
Proof.
  unfold str. intros H.
  apply (f_equal NilEmpty.uint_of_string) in H.
  rewrite NilEmpty.usu in H. simpl in H. inversion H as [H'].
  apply (f_equal Nat.of_uint) in H'. rewrite Unsigned.of_to in H'.
  destruct i; [|discriminate].
  vm_compute in H. discriminate.
Qed.

(** X10.  The name of an output file, for every index and not only for the
    51 of the script: it is not empty beyond its extension, it contains no
    path separator, so [os.path.join] puts the file directly inside
    hard_docs, and two indices never share a name, so no iteration of the
    loop overwrites the file of another. *)
Theorem output_names_plain_and_distinct (i j : nat) :
  has_slash (str i ++ ".txt") = false /\
  (str i ++ ".txt")%string <> ".txt"%string /\
  os_path_join dir (str i ++ ".txt") = ["hard_docs"; (str i ++ ".txt")%string] /\
  ((str i ++ ".txt")%string = (str j ++ ".txt")%string <-> i = j).
Proof.
  split; [|split; [|split]].
  - rewrite has_slash_append. destruct (str_digits_only i) as (H & _).
    rewrite H. reflexivity.
  - intros H. apply (append_inj_l (str i) "" ".txt") in H.
    now apply (str_not_empty i).
  - reflexivity.
  - split.
    + apply fname_inj.
    + intros ->. reflexivity.
Qed.

Lemma universal_newlines_cr_free (s : string) :
  has_cr (universal_newlines s) = false.
Proof.
  induction s as [|c r IH]; simpl; auto.
  destruct (Ascii.eqb c CR) eqn:Ec.
  - destruct r as [|c' r']; [reflexivity|].
    destruct (Ascii.eqb c' LF) eqn:El.
    + apply Ascii.eqb_eq in El. subst c'. simpl in IH. exact IH.
    + simpl. exact IH.
  - simpl. rewrite Ec. exact IH.
Qed.

(** X11.  After a successful run no output file contains a carriage
    return, whatever docs.txt holds: the index line is made of digits and a
    line feed, and the text of the document went through the translation of
    line endings when it was read. *)
Theorem run_output_has_no_carriage_return (deny : op -> bool)
    (reached : path -> nat) (argv : list string)
    (environ : list (string * string)) (fs : dirents) (s' : state) :
  run deny reached argv environ fs = (Ok tt, s') ->
  exists ents,
    hard_docs (cwd s') = Some (Dir ents) /\
    List.length ents = 51 /\
    Forall cr_free ents.
Proof.
  intros Hrun. apply run_ok_inv in Hrun. destruct Hrun as (C & _ & ->).
  exists (out_files (universal_newlines C) 51). cbn [cwd].
  split; [apply hard_docs_installed|]. split; [reflexivity|].
  unfold out_files, files_from. apply Forall_forall. intros e He.
  apply in_map_iff in He. destruct He as (i & <- & _).
  unfold cr_free, out_file, fcontent. cbn [snd].
  rewrite !has_cr_append. destruct (str_digits_only i) as (_ & H).
  rewrite H, universal_newlines_cr_free. reflexivity.
Qed.

Lemma run_output_has_no_carriage_return_witness :
  exists ents,
    hard_docs (cwd (snd (run no_faults nothing_reached [] [] fs_crlf))) =
      Some (Dir ents) /\
    List.length ents = 51 /\
    Forall cr_free ents.
Proof.
  apply (run_output_has_no_carriage_return no_faults nothing_reached [] []
           fs_crlf).
  vm_compute. reflexivity.
Defined.

(** X12.  Two successful runs leave the same output directory exactly when
    their documents read as the same text: documents that differ only in
    their line endings (LF, CR LF or CR) give the same 51 files, and any
    other difference shows in the files. *)
Theorem run_output_depends_on_text_only (deny1 deny2 : op -> bool)
    (reached1 reached2 : path -> nat) (argv1 argv2 : list string)
    (environ1 environ2 : list (string * string))
    (fs1 fs2 : dirents) (C1 C2 : string) (s1 s2 : state) :
  docs_txt fs1 = Some (File C1) ->
  docs_txt fs2 = Some (File C2) ->
  run deny1 reached1 argv1 environ1 fs1 = (Ok tt, s1) ->
  run deny2 reached2 argv2 environ2 fs2 = (Ok tt, s2) ->
  (hard_docs (cwd s1) = hard_docs (cwd s2) <->
   universal_newlines C1 = universal_newlines C2).
Proof.
  intros Hd1 Hd2 Hrun1 Hrun2.
  apply run_ok_inv in Hrun1. destruct Hrun1 as (C1' & Hready1 & ->).
  apply run_ok_inv in Hrun2. destruct Hrun2 as (C2' & Hready2 & ->).
  destruct Hready1 as (_ & _ & _ & _ & Hdocs1 & _).
  destruct Hready2 as (_ & _ & _ & _ & Hdocs2 & _).
  rewrite Hd1 in Hdocs1. rewrite Hd2 in Hdocs2.
  inversion Hdocs1; inversion Hdocs2; subst C1' C2'.
  cbn [cwd]. rewrite !hard_docs_installed. split.
  - intros H. inversion H as [H0]. reflexivity.
  - intros ->. reflexivity.
Qed.

Lemma run_output_depends_on_text_only_witness :
  hard_docs (cwd (snd (run no_faults nothing_reached [] [] fs_crlf))) =
    hard_docs
      (cwd (snd (run no_faults nothing_reached [] []
                   [("docs.txt", File ("a" ++ nl ++ "b")%string)]))) <->
  universal_newlines crlf_text = universal_newlines ("a" ++ nl ++ "b")%string.
Proof.
  apply (run_output_depends_on_text_only no_faults no_faults
           nothing_reached nothing_reached [] [] [] []
           fs_crlf [("docs.txt", File ("a" ++ nl ++ "b")%string)]).
  - reflexivity.
  - reflexivity.
  - vm_compute. reflexivity.
  - vm_compute. reflexivity.
Defined.
